(** * inventory-service: reservation engine, broker connection and consumer

    A shallow embedding of [src/inventory-service/app.py].

    The service keeps per-item stock counts in Redis, reserves stock through
    one server-side Lua script, and runs a RabbitMQ consumer that counts the
    order notifications it sees.

    Conventions of the embedding.
    - Python values that come out of a JSON decoder are the type [pyval]; a
      float is given by what the module can ask of it.
    - Text is the string of bytes of its UTF-8 encoding. [int] of a string
      is modelled for ASCII text; properties that rest on a refusal of
      [int] assume ASCII text. Standard output takes any text.
    - Redis holds decimal strings; a key's value is modelled by the integer
      the string denotes. Lua numbers are IEEE doubles: the script sees the
      double nearest to each integer, and the server writes a number back
      as text with at most 17 significant digits.
    - The process state (Redis contents, the module globals [connection] and
      [channel], the Prometheus counter and the observable effects) is one
      record [world]; every function of the module is a function on it that
      returns either a value or the exception it raises.
    - Requests that the HTTP threads issue concurrently reach Redis one
      script at a time; a list of calls is the order in which Redis runs
      them. *)

From Stdlib Require Import ZArith Lia Ascii String.
From stdpp Require Import gmap strings list pretty.

Local Open Scope Z_scope.
Set Warnings "-register-all".

(** ** Python values, exceptions and the built-ins the module uses *)

Inductive exn : Type :=
| TypeError
| ValueError
| OverflowError
| KeyError (k : string)
| JSONDecodeError
| UnicodeDecodeError
| RecursionError
| RuntimeError (msg : string)
| RedisError (detail : string)
| ResponseError
| DataError
| AMQPError (detail : string).

Inductive result (A : Type) : Type :=
| Ok (a : A)
| Raise (e : exn).
Arguments Ok {A} a.
Arguments Raise {A} e.

(** A float, by what the module can ask of it: [int(f)] (the truncation,
    [OverflowError] for an infinity, [ValueError] for a NaN), whether it is
    zero, and [repr(f)]. *)
Record pyfloat : Type := PyFloat {
  float_int : result Z;
  float_zero : bool;
  float_repr : string
}.

Inductive pyval : Type :=
| PNone
| PBool (b : bool)
| PInt (n : Z)
| PFloat (f : pyfloat)
| PStr (s : string)
| PList (l : list pyval)
| PDict (d : list (string * pyval)).

(** [bool(v)]: the truth value Python gives [v] in [not v] and [v or w]. *)
Definition truthy (v : pyval) : bool :=
  match v with
  | PNone => false
  | PBool b => b
  | PInt n => negb (n =? 0)
  | PFloat f => negb (float_zero f)
  | PStr s => negb (String.eqb s "")
  | PList l => match l with [] => false | _ => true end
  | PDict d => match d with [] => false | _ => true end
  end.

(** A dict is represented by its items; a key is looked up from the front. *)
Fixpoint dict_get (k : string) (d : list (string * pyval)) : option pyval :=
  match d with
  | [] => None
  | (k', v) :: d' => if String.eqb k k' then Some v else dict_get k d'
  end.

Definition is_str (k : string) (v : pyval) : bool :=
  match v with
  | PStr s => String.eqb s k
  | _ => false
  end.

Fixpoint is_substring (k s : string) : bool :=
  String.prefix k s ||
  match s with
  | EmptyString => false
  | String _ s' => is_substring k s'
  end.

(** [k in v] for a string [k]: key membership in a dict, element membership
    in a list, substring test in a string, [TypeError] otherwise. *)
Definition py_in (k : string) (v : pyval) : result bool :=
  match v with
  | PDict d => Ok (bool_decide (is_Some (dict_get k d)))
  | PList l => Ok (existsb (is_str k) l)
  | PStr s => Ok (is_substring k s)
  | PNone | PBool _ | PInt _ | PFloat _ => Raise TypeError
  end.

(** [v[k]] for a string [k]. *)
Definition subscript (v : pyval) (k : string) : result pyval :=
  match v with
  | PDict d =>
      match dict_get k d with
      | Some x => Ok x
      | None => Raise (KeyError k)
      end
  | _ => Raise TypeError
  end.

(** *** [int(...)] *)

(** White space of an ASCII string: tab to carriage return, and space. *)
Definition is_space (c : ascii) : bool :=
  let n := Z.of_nat (nat_of_ascii c) in
  ((9 <=? n) && (n <=? 13)) || (n =? 32).

Definition digit_of (c : ascii) : option Z :=
  let n := Z.of_nat (nat_of_ascii c) in
  if (48 <=? n) && (n <=? 57) then Some (n - 48) else None.

Fixpoint lstrip (s : string) : string :=
  match s with
  | String c s' => if is_space c then lstrip s' else s
  | EmptyString => EmptyString
  end.

Definition strip (s : string) : string :=
  String.rev (lstrip (String.rev (lstrip s))).

(** Decimal digits, single underscores allowed between two digits.
    [prev] tells whether the character before was a digit. *)
Fixpoint digits (acc : Z) (prev : bool) (s : string) : option Z :=
  match s with
  | EmptyString => if prev then Some acc else None
  | String c s' =>
      match digit_of c with
      | Some d => digits (10 * acc + d) true s'
      | None =>
          if Ascii.eqb c "_"%char && prev then digits acc false s' else None
      end
  end.

Fixpoint count_digits (s : string) : Z :=
  match s with
  | EmptyString => 0
  | String c s' =>
      (match digit_of c with Some _ => 1 | None => 0 end) + count_digits s'
  end.

(** The interpreter converts at most this many digits between text and
    integers ([sys.int_info.default_max_str_digits]). *)
Definition max_str_digits : Z := 4300.

(** The digits of a literal: at most [max_str_digits] of them. *)
Definition literal (t : string) : option Z :=
  match digits 0 false t with
  | Some n => if max_str_digits <? count_digits t then None else Some n
  | None => None
  end.

(** [int(s)] for a string, base ten, ASCII text: surrounding white space
    is dropped, one sign is allowed. *)
Definition int_of_str (s : string) : result Z :=
  let body :=
    match strip s with
    | String "-"%char t => Z.opp <$> literal t
    | String "+"%char t => literal t
    | t => literal t
    end in
  match body with
  | Some n => Ok n
  | None => Raise ValueError
  end.

Definition py_int (v : pyval) : result Z :=
  match v with
  | PInt n => Ok n
  | PBool b => Ok (if b then 1 else 0)
  | PFloat f => float_int f
  | PStr s => int_of_str s
  | PNone | PList _ | PDict _ => Raise TypeError
  end.

(** Text made of ASCII characters only. *)
Fixpoint ascii_only (s : string) : bool :=
  match s with
  | EmptyString => true
  | String c s' => (Z.of_nat (nat_of_ascii c) <? 128) && ascii_only s'
  end.

(** [os.environ]; [int(os.environ.get(name, dflt))] with an integer [dflt]. *)
Definition env_int (environ : gmap string string) (name : string) (dflt : Z)
  : result Z :=
  match environ !! name with
  | Some s => int_of_str s
  | None => Ok dflt
  end.

Definition env_str (environ : gmap string string) (name dflt : string)
  : string :=
  default dflt (environ !! name).

(** [int(arg or os.environ.get(name, dflt))] for an optional integer
    argument: [None] and [0] are false and give way to the environment. *)
Definition arg_or_env (arg : option Z) (environ : gmap string string)
    (name : string) (dflt : Z) : result Z :=
  match arg with
  | Some n => if n =? 0 then env_int environ name dflt else Ok n
  | None => env_int environ name dflt
  end.

(** The decimal text of an integer, [repr(n)]: refused beyond
    [max_str_digits] digits. *)
Definition too_long (n : Z) : bool := 10 ^ max_str_digits <=? Z.abs n.

Definition int_repr (n : Z) : result string :=
  if too_long n then Raise ValueError else Ok (pretty n).
(** ** The process state *)

(** What one attempt of [connect_broker] meets at the broker: the three
    calls [pika.BlockingConnection], [connection.channel] and
    [channel.queue_declare] in turn succeed or raise. Connections and
    channels are named by numbers. *)
Inductive attempt : Type :=
| Refused (e : exn)
| NoChannel (conn : nat) (e : exn)
| NoQueue (conn ch : nat) (e : exn)
| Ready (conn ch : nat).

Definition attempt_fails (a : attempt) : Prop :=
  match a with
  | Ready _ _ => False
  | _ => True
  end.

(** Effects that leave the process, in the order they happen. *)
Inductive event : Type :=
| Handshake (host : string) (port : Z)       (* pika.BlockingConnection(...) *)
| OpenChannel (conn : nat)                   (* connection.channel() *)
| QueueDeclare (ch : nat) (queue : string)   (* channel.queue_declare(...) *)
| PrintRetry (e : exn) (wait : Z)            (* "RabbitMQ not ready ..." *)
| Sleep (wait : Z)                           (* time.sleep(wait) *)
| BasicConsume (ch : nat) (queue : string) (auto_ack : bool)
| PrintProcessed (order : pyval).            (* "Processed order ..." *)

Record world : Type := World {
  store : gmap string Z;          (* contents of the Redis server behind [r] *)
  store_fault : option string;    (* [Some d]: commands on [r] raise, detail d *)
  connection : option nat;        (* global [connection] *)
  channel : option nat;           (* global [channel] *)
  processed_counter : Z;          (* orders_processed_total *)
  trace : list event
}.

Definition set_store (m : gmap string Z) (w : world) : world :=
  World m (store_fault w) (connection w) (channel w)
        (processed_counter w) (trace w).
Definition set_connection (c : nat) (w : world) : world :=
  World (store w) (store_fault w) (Some c) (channel w)
        (processed_counter w) (trace w).
Definition set_channel (ch : nat) (w : world) : world :=
  World (store w) (store_fault w) (connection w) (Some ch)
        (processed_counter w) (trace w).
Definition inc_processed (w : world) : world :=
  World (store w) (store_fault w) (connection w) (channel w)
        (processed_counter w + 1) (trace w).
Definition emit (ev : event) (w : world) : world :=
  World (store w) (store_fault w) (connection w) (channel w)
        (processed_counter w) (trace w ++ [ev]).

(** Number of connection handshakes performed so far. *)
Definition is_handshake (ev : event) : bool :=
  match ev with
  | Handshake _ _ => true
  | _ => false
  end.
Definition handshakes (w : world) : nat :=
  length (filter (fun ev => is_handshake ev = true) (trace w)).

(** Computations of the module: a result, or the exception raised, and the
    state left behind. *)
Definition M (A : Type) : Type := world -> result A * world.

Definition ret {A} (a : A) : M A := fun w => (Ok a, w).
Definition raise {A} (e : exn) : M A := fun w => (Raise e, w).
Definition bind {A B} (m : M A) (k : A -> M B) : M B :=
  fun w =>
    match m w with
    | (Ok a, w') => k a w'
    | (Raise e, w') => (Raise e, w')
    end.
Definition lift {A} (r : result A) : M A := fun w => (r, w).
Definition effect (f : world -> world) : M unit := fun w => (Ok tt, f w).

Notation "x <- m ;; k" := (bind m (fun x => k))
  (at level 100, m at next level, right associativity).
Notation "m ;;; k" := (bind m (fun _ => k))
  (at level 100, right associativity).


(** ** Redis *)

(** *** Lua numbers *)

(** The double nearest to an integer, ties to the even significand of 53
    bits; the exponent is not bounded here. *)
Definition round_double (n : Z) : Z :=
  let a := Z.abs n in
  let e := Z.log2 a - 52 in
  if e <=? 0 then n
  else
    let q := a / 2 ^ e in
    let r := a mod 2 ^ e in
    let half := 2 ^ (e - 1) in
    let q' :=
      if r <? half then q
      else if half <? r then q + 1
      else if Z.even q then q else q + 1 in
    Z.sgn n * (q' * 2 ^ e).

(** A Lua number that came from an integer: a double holding an integer, or
    an infinity. *)
Inductive lnum : Type :=
| Fin (z : Z)
| Inf (negative : bool).

(** [tonumber(text)] for the decimal text of [n]. *)
Definition tonumber (n : Z) : lnum :=
  let r := round_double n in
  if 2 ^ 1024 <=? Z.abs r then Inf (n <? 0) else Fin r.

(** [x < y] in Lua. *)
Definition lnum_lt (x y : lnum) : bool :=
  match x, y with
  | Fin a, Fin b => a <? b
  | Fin _, Inf negative => negb negative
  | Inf negative, Fin _ => negative
  | Inf a, Inf b => a && negb b
  end.

(** The text the server makes of a Lua number that is an argument of a
    command is printed with 17 significant digits: it is an integer
    literal, which is returned here, when the number is finite and below
    10^17 in magnitude, and has an exponent or is [inf] otherwise.
    (Servers differ on the text of a number of 10^17 and more; below it
    every one writes the integer.) *)
Definition number_arg (x : lnum) : option Z :=
  match x with
  | Fin z => if Z.abs z <? 10 ^ 17 then Some z else None
  | Inf _ => None
  end.

(** Signed 64-bit integers, the range of [DECRBY]. *)
Definition int64 (z : Z) : bool := (- 2 ^ 63 <=? z) && (z <=? 2 ^ 63 - 1).

(** An integer reply that goes through Lua: it becomes a double and is
    cast back to 64 bits when the script returns it (the cast of 2^63
    gives the least integer). *)
Definition through_lua (v : Z) : Z :=
  let r := round_double v in
  if 2 ^ 63 <=? r then - 2 ^ 63 else r.

(** *** Commands *)

(** Commands as the Lua script issues them on the server: [redis.call].
    A command that answers with an error ends the script; what the script
    wrote before stays. *)
Definition lua (A : Type) : Type := gmap string Z -> A * gmap string Z.

Definition redis_GET (key : string) : lua (option Z) :=
  fun m => (m !! key, m).

(** [SET key x] for a Lua number [x]. The store of this model holds
    integers: a number whose text is not an integer literal cannot be
    held, and the script is made to stop there. *)
Definition redis_SET (key : string) (x : lnum) : lua (option unit) :=
  fun m =>
    match number_arg x with
    | Some v => (Some tt, <[key := v]> m)
    | None => (None, m)
    end.

(** [DECRBY key x]: the argument and the stored value must be 64-bit
    integers, and so must the difference. *)
Definition redis_DECRBY (key : string) (x : lnum) : lua (option Z) :=
  fun m =>
    match number_arg x with
    | None => (None, m)
    | Some by_ =>
        let old := default 0 (m !! key) in
        let v := old - by_ in
        if int64 old && int64 v then (Some v, <[key := v]> m)
        else (None, m)
    end.

(** The script of [reserve]: KEYS[1] = [key], ARGV = [qty; dflt]. The
    answer is the integer the client receives, or [None] for an error
    reply. *)
Definition reserve_script (key : string) (qty dflt : Z) : lua (option Z) :=
  fun m =>
    let qty := tonumber qty in
    let dflt := tonumber dflt in
    let '(got, m) := redis_GET key m in
    let '(cur, m) :=
      match got with
      | None =>
          let '(done, m) := redis_SET key dflt m in
          (match done with Some _ => Some dflt | None => None end, m)
      | Some c => (Some (tonumber c), m)
      end in
    match cur with
    | None => (None, m)
    | Some cur =>
        if lnum_lt cur qty then (Some (-1), m)
        else
          let '(v, m) := redis_DECRBY key qty m in
          (through_lua <$> v, m)
    end.

(** How the client writes a Python value on the wire: strings as they are,
    integers and floats by their [repr]; every other kind of value is
    refused. *)
Definition redis_encode (v : pyval) : result string :=
  match v with
  | PStr s => Ok s
  | PInt n => int_repr n
  | PFloat f => Ok (float_repr f)
  | _ => Raise DataError
  end.

(** [r.get(name)] *)
Definition r_get (name : pyval) : M (option Z) :=
  fun w =>
    match store_fault w with
    | Some d => (Raise (RedisError d), w)
    | None =>
        match redis_encode name with
        | Ok key => (Ok (store w !! key), w)
        | Raise e => (Raise e, w)
        end
    end.

(** [r.eval(lua, 1, item, qty, default)] with the script above: the
    arguments are encoded, then the script runs on the server as one
    step. *)
Definition r_eval (item : pyval) (qty dflt : Z) : M Z :=
  fun w =>
    match store_fault w with
    | Some d => (Raise (RedisError d), w)
    | None =>
        match redis_encode item with
        | Ok key =>
            if too_long qty || too_long dflt then (Raise ValueError, w)
            else
              let '(res, m) := reserve_script key qty dflt (store w) in
              match res with
              | Some n => (Ok n, set_store m w)
              | None => (Raise ResponseError, set_store m w)
              end
        | Raise e => (Raise e, w)
        end
    end.
(** ** HTTP views *)

Inductive response : Type :=
| JsonStock (item : string) (stock : Z)         (* {"item", "stock"}, 200 *)
| JsonRequired                (* {"error": "item and quantity required"}, 400 *)
| JsonRedisError (e : exn)    (* {"error": "redis error", "detail"}, 500 *)
| JsonReserve (success : bool) (remaining : Z)  (* {"success", "remaining"}, 200 *)
| Uncaught (e : exn).         (* exception leaving the view: the framework's 500 *)

Definition status (resp : response) : Z :=
  match resp with
  | JsonStock _ _ => 200
  | JsonRequired => 400
  | JsonRedisError _ => 500
  | JsonReserve _ _ => 200
  | Uncaught _ => 500
  end.

(** A view runs to a response; an exception it lets through becomes the
    framework's error response. *)
Definition serve (view : M response) : world -> response * world :=
  fun w =>
    match view w with
    | (Ok resp, w') => (resp, w')
    | (Raise e, w') => (Uncaught e, w')
    end.

(** [GET /inventory/<item>] *)
Definition get_inventory (item : string) : world -> response * world :=
  serve (
    stock <- r_get (PStr item);;
    match stock with
    | None => ret (JsonStock item 0)
    | Some n => ret (JsonStock item n)
    end).

(** [not data or "item" not in data or "quantity" not in data] *)
Definition fields_missing (data : pyval) : result bool :=
  if negb (truthy data) then Ok true
  else
    match py_in "item" data with
    | Raise e => Raise e
    | Ok false => Ok true
    | Ok true =>
        match py_in "quantity" data with
        | Raise e => Raise e
        | Ok has => Ok (negb has)
        end
    end.

(** [POST /reserve]; [data] is what [request.get_json()] returned. *)
Definition reserve (environ : gmap string string) (data : pyval)
  : world -> response * world :=
  serve (
    missing <- lift (fields_missing data);;
    if missing then ret JsonRequired
    else
      item <- lift (subscript data "item");;
      quantity <- lift (subscript data "quantity");;
      qty <- lift (py_int quantity);;
      dflt <- lift (env_int environ "DEFAULT_STOCK" 100);;
      fun w =>
        match r_eval item qty dflt w with
        | (Raise e, w') => (Ok (JsonRedisError e), w')
        | (Ok res, w') =>
            if res =? -1 then
              (cur <- r_get item;;
               ret (JsonReserve false (default dflt cur))) w'
            else (Ok (JsonReserve true res), w')
        end).


(** ** Broker connection *)

(** The longest wait [time.sleep] takes, in seconds: beyond it, on either
    side of zero, the conversion to the clock's 64-bit count of
    nanoseconds overflows. *)
Definition max_sleep : Z := 9223372036.

Definition time_sleep (wait : Z) : M unit :=
  fun w =>
    if (wait <? - max_sleep) || (max_sleep <? wait) then (Raise OverflowError, w)
    else if wait <? 0 then (Raise ValueError, w)
    else (Ok tt, emit (Sleep wait) w).
(** The [try] block of one iteration. The broker's answer to the n-th
    handshake of the process is [target n]. *)
Definition try_connect (target : nat -> attempt) (host : string) (port : Z)
  : M nat :=
  fun w =>
    let w1 := emit (Handshake host port) w in
    match target (handshakes w) with
    | Refused e => (Raise e, w1)
    | NoChannel c e =>
        (Raise e, emit (OpenChannel c) (set_connection c w1))
    | NoQueue c ch e =>
        (Raise e,
         emit (QueueDeclare ch "order_created")
           (set_channel ch (emit (OpenChannel c) (set_connection c w1))))
    | Ready c ch =>
        (Ok ch,
         emit (QueueDeclare ch "order_created")
           (set_channel ch (emit (OpenChannel c) (set_connection c w1))))
    end.

(** [print(f"... RabbitMQ not ready ({e}), retrying in {wait}s...")]: the
    decimal text of [wait] is refused beyond [max_str_digits] digits. *)
Definition print_retry (e : exn) (wait : Z) : M unit :=
  fun w =>
    if too_long wait then (Raise ValueError, w)
    else (Ok tt, emit (PrintRetry e wait) w).

Definition could_not_connect : exn :=
  RuntimeError "[inventory-service] Could not connect to RabbitMQ after retries.".

(** [for attempt in range(max_retries)], with [n] iterations left. *)
Fixpoint connect_loop (target : nat -> attempt) (host : string) (port : Z)
    (retry_base : Z) (n : nat) (attempt : Z) : M nat :=
  match n with
  | O => raise could_not_connect
  | S n' =>
      fun w =>
        match try_connect target host port w with
        | (Ok ch, w') => (Ok ch, w')
        | (Raise e, w') =>
            (let wait := retry_base * (attempt + 1) in
             print_retry e wait;;;
             time_sleep wait;;;
             connect_loop target host port retry_base n' (attempt + 1)) w'
        end
  end.

Definition connect_broker (environ : gmap string string)
    (target : nat -> attempt) (max_retries retry_base : option Z) : M nat :=
  fun w =>
    match channel w, connection w with
    | Some ch, Some _ => (Ok ch, w)
    | _, _ =>
        (max_retries <- lift (arg_or_env max_retries environ "BROKER_MAX_RETRIES" 10);;
         retry_base <- lift (arg_or_env retry_base environ "BROKER_RETRY_BASE" 2);;
         let broker_host := env_str environ "BROKER_HOST" "rabbitmq" in
         broker_port <- lift (env_int environ "BROKER_PORT" 5672);;
         connect_loop target broker_host broker_port retry_base
           (Z.to_nat max_retries) 0) w
    end.

(** ** Consumer *)

(** An integer too long for the decoder occurs in the value. *)
Fixpoint long_int (v : pyval) : bool :=
  match v with
  | PInt n => too_long n
  | PList l => existsb long_int l
  | PDict d => existsb (fun kv => let '(_, x) := kv in long_int x) d
  | _ => false
  end.

(** A delivered message body, as [json.loads] sees it: bytes that are not
    text in a Unicode encoding, text that is not JSON, JSON nested deeper
    than the decoder goes, or the value the text denotes. *)
Inductive body : Type :=
| BadEncoding (raw : string)
| Garbage (raw : string)
| TooDeep (raw : string)
| Json (v : pyval).

Definition json_loads (b : body) : result pyval :=
  match b with
  | BadEncoding _ => Raise UnicodeDecodeError
  | Garbage _ => Raise JSONDecodeError
  | TooDeep _ => Raise RecursionError
  | Json v => if long_int v then Raise ValueError else Ok v
  end.

Definition callback (b : body) : M unit :=
  order <- lift (json_loads b);;
  item <- lift (subscript order "item");;
  q <- lift (subscript order "quantity");;
  quantity <- lift (py_int q);;
  effect inc_processed;;;
  effect (emit (PrintProcessed order)).

(** How far the consumer got: an exception left [start_consumer], or every
    delivery was handled and the loop waits for the next one. *)
Inductive consumer : Type :=
| Crashed (e : exn)
| Consuming.

(** [ch.start_consuming()]: the callback is called on each delivery in turn;
    an exception of the callback leaves the loop. *)
Fixpoint start_consuming (deliveries : list body) : world -> consumer * world :=
  match deliveries with
  | [] => fun w => (Consuming, w)
  | b :: rest =>
      fun w =>
        match callback b w with
        | (Ok _, w') => start_consuming rest w'
        | (Raise e, w') => (Crashed e, w')
        end
  end.

Definition start_consumer (environ : gmap string string)
    (target : nat -> attempt) (deliveries : list body)
  : world -> consumer * world :=
  fun w =>
    match connect_broker environ target None None w with
    | (Raise e, w') => (Crashed e, w')
    | (Ok ch, w') =>
        start_consuming deliveries
          (emit (BasicConsume ch "order_created" true) w')
    end.

(** ** Initial state and sample requests *)

Definition boot : world := World ∅ None None None 0 [].

Definition order_body (item : string) (qty : Z) : pyval :=
  PDict [("item", PStr item); ("quantity", PInt qty)].

(** ** Notions the properties are stated with *)

(** Integers every double holds exactly: Lua reads, compares and writes
    them without rounding. *)
Definition exact (n : Z) : Prop := - 2 ^ 53 <= n <= 2 ^ 53.

(** [v] is a JSON object with a field [k]. *)
Definition has_field (v : pyval) (k : string) : Prop :=
  exists d x, v = PDict d /\ dict_get k d = Some x.

(** [data] is a reservation request for [q] units of [key]: a JSON object
    whose [item] is the string [key] and whose [quantity] converts to the
    integer [q]. An order event has the same shape. *)
Definition reservation_request (data : pyval) (key : string) (q : Z) : Prop :=
  exists d qv,
    data = PDict d /\ dict_get "item" d = Some (PStr key) /\
    dict_get "quantity" d = Some qv /\ py_int qv = Ok q.

Definition well_formed_request (data : pyval) : Prop :=
  exists key q, reservation_request data key q.

Definition malformed_request (data : pyval) : Prop :=
  ~ well_formed_request data.

(** A request body the guard of [reserve] is written for: nothing, an empty
    value, or an object without [item] or without [quantity]. *)
Definition lacks_fields (data : pyval) : Prop :=
  truthy data = false \/
  exists d, data = PDict d /\
            (dict_get "item" d = None \/ dict_get "quantity" d = None).

Definition well_formed_event (b : body) : Prop :=
  exists v key q, json_loads b = Ok v /\ reservation_request v key q.

(** A message whose body does not decode, or decodes to something without
    an [item] or without a [quantity] field. *)
Definition malformed_event (b : body) : Prop :=
  match json_loads b with
  | Raise _ => True
  | Ok v => ~ has_field v "item" \/ ~ has_field v "quantity"
  end.

(** The exception the handler ends with on a malformed message: the one of
    the decoder, [TypeError] for a value that is not an object, [KeyError]
    for the first field that is missing. *)
Definition malformed_error (b : body) (e : exn) : Prop :=
  match json_loads b with
  | Raise e' => e = e'
  | Ok (PDict d) =>
      match dict_get "item" d with
      | None => e = KeyError "item"
      | Some _ => e = KeyError "quantity"
      end
  | Ok _ => e = TypeError
  end.

(** Stock of [key] as the engine reads it: the stored value, or the default
    when the key is absent. *)
Definition current_stock (dflt : Z) (key : string) (w : world) : Z :=
  default dflt (store w !! key).

(** A series of [POST /reserve] calls, in the order Redis serves them. *)
Fixpoint reserve_all (environ : gmap string string) (reqs : list pyval)
    (w : world) : list response * world :=
  match reqs with
  | [] => ([], w)
  | data :: rest =>
      let '(resp, w1) := reserve environ data w in
      let '(resps, w2) := reserve_all environ rest w1 in
      (resp :: resps, w2)
  end.

(** What a call took from the stock: its quantity when it succeeded. *)
Definition granted (q : Z) (resp : response) : Z :=
  match resp with
  | JsonReserve true _ => q
  | _ => 0
  end.

Fixpoint total_granted (qs : list Z) (resps : list response) : Z :=
  match qs, resps with
  | q :: qs', resp :: resps' => granted q resp + total_granted qs' resps'
  | _, _ => 0
  end.

(** The waits of [connect_broker], in order. *)
Definition is_sleep (ev : event) : option Z :=
  match ev with
  | Sleep t => Some t
  | _ => None
  end.
Definition sleeps (w : world) : list Z := omap is_sleep (trace w).


Definition stock60 : gmap string string := {[ "DEFAULT_STOCK" := "60" ]}.

(** A broker that refuses every handshake, and one that accepts. *)
Definition refusing : nat -> attempt := fun _ => Refused (AMQPError "refused").
Definition accepting : nat -> attempt := fun _ => Ready 1 1.

(** ** Notions for the further properties *)

(** What the script makes of the value a key holds: its answer, and the
    value the key holds afterwards ([None]: the key is still absent). *)
Definition script_on (qty dflt : Z) (old : option Z) : option Z * option Z :=
  let q := tonumber qty in
  let d := tonumber dflt in
  let '(cur, held) :=
    match old with
    | Some c => (Some (tonumber c), Some c)
    | None =>
        match number_arg d with
        | Some v => (Some d, Some v)
        | None => (None, None)
        end
    end in
  match cur with
  | None => (None, held)
  | Some cur =>
      if lnum_lt cur q then (Some (-1), held)
      else
        match number_arg q with
        | None => (None, held)
        | Some by_ =>
            let v := default 0 held - by_ in
            if int64 (default 0 held) && int64 v
            then (Some (through_lua v), Some v)
            else (None, held)
        end
  end.

Definition hold (key : string) (held : option Z) (m : gmap string Z)
  : gmap string Z :=
  match held with
  | Some v => <[key := v]> m
  | None => m
  end.

(** What a well-formed request for [q] units gets on a reachable store
    from the value its key holds, and the value the key holds afterwards. *)
Definition request_on (q dflt : Z) (old : option Z) : response * option Z :=
  if too_long q || too_long dflt then (JsonRedisError ValueError, old)
  else
    let '(res, held) := script_on q dflt old in
    match res with
    | None => (JsonRedisError ResponseError, held)
    | Some n =>
        if n =? -1 then (JsonReserve false (default dflt held), held)
        else (JsonReserve true n, held)
    end.

(** A string value is ASCII text; other values pass. *)
Definition ascii_value (v : pyval) : Prop :=
  match v with
  | PStr s => ascii_only s = true
  | _ => True
  end.

(** The settings are ASCII text. *)
Definition ascii_environ (environ : gmap string string) : Prop :=
  forall name s, environ !! name = Some s -> ascii_only s = true.

(** The [quantity] of a delivery, when there is one, is ASCII text or not
    a string. *)
Definition ascii_quantity (b : body) : Prop :=
  forall d qv,
    json_loads b = Ok (PDict d) -> dict_get "quantity" d = Some qv ->
    ascii_value qv.

(** A delivery the handler gets through: the body decodes to an object that
    has an [item] and a [quantity] that converts to an integer. *)
Definition acceptable_event (b : body) : Prop :=
  exists d x qv q,
    json_loads b = Ok (PDict d) /\ dict_get "item" d = Some x /\
    dict_get "quantity" d = Some qv /\ py_int qv = Ok q.

(** No stored count is negative. *)
Definition stock_nonneg (w : world) : Prop :=
  map_Forall (fun _ v => 0 <= v) (store w).

(** The configured default stock is ASCII text and, when it reads as an
    integer, is exact and not negative. *)
Definition default_nonneg (environ : gmap string string) : Prop :=
  (forall s, environ !! "DEFAULT_STOCK" = Some s -> ascii_only s = true) /\
  forall dflt,
    env_int environ "DEFAULT_STOCK" 100 = Ok dflt -> 0 <= dflt <= 2 ^ 53.

(** The quantity of a request is ASCII text or not a string and, when it
    converts to an integer, is exact. *)
Definition exact_quantity (data : pyval) : Prop :=
  forall qv,
    subscript data "quantity" = Ok qv ->
    ascii_value qv /\ forall q, py_int qv = Ok q -> exact q.

(** What a reservation of [q] units makes of a stock [cur], and the answer
    it gets. *)
Definition stock_after (cur q : Z) : Z :=
  if cur <? q then cur else cur - q.
Definition answer_for (cur q : Z) : response :=
  if cur <? q then JsonReserve false cur else JsonReserve true (cur - q).

(** Sample states, settings and brokers. *)
Definition stocked : world := set_store {[ "widget" := 70 ]} boot.
Definition bad_stock : gmap string string := {[ "DEFAULT_STOCK" := "lots" ]}.
Definition bad_retries : gmap string string :=
  {[ "BROKER_MAX_RETRIES" := "many" ]}.
Definition no_retries : gmap string string := {[ "BROKER_MAX_RETRIES" := "0" ]}.
Definition flaky : nat -> attempt :=
  fun n => if (n <? 2)%nat then Refused (AMQPError "refused") else Ready 7 9.
Definition two53 : gmap string string :=
  {[ "DEFAULT_STOCK" := "9007199254740992" ]}.
Definition two53_1 : gmap string string :=
  {[ "DEFAULT_STOCK" := "9007199254740993" ]}.

(** * Properties *)

(** ** Numbers *)

Lemma round_double_exact n : exact n -> round_double n = n.
Proof.
  unfold exact, round_double. intros Hn.
  destruct (Z.log2 (Z.abs n) - 52 <=? 0) eqn:He; [done|].
  apply Z.leb_gt in He.
  assert (Hpos : 0 < Z.abs n).
  { destruct (Z.eq_dec (Z.abs n) 0) as [H0|]; [|lia].
    rewrite H0 in He. simpl in He. lia. }
  pose proof (Z.log2_spec _ Hpos) as [Hlo _].
  assert (2 ^ 53 <= 2 ^ Z.log2 (Z.abs n)) by (apply Z.pow_le_mono_r; lia).
  assert (Habs : Z.abs n = 2 ^ 53) by lia.
  assert (Hcase : n = 2 ^ 53 \/ n = - 2 ^ 53) by lia.
  clear He Hlo H. destruct Hcase as [-> | ->]; reflexivity.
Qed.

Lemma tonumber_exact n : exact n -> tonumber n = Fin n.
Proof.
  intros Hn. unfold tonumber. rewrite (round_double_exact _ Hn).
  destruct (2 ^ 1024 <=? Z.abs n) eqn:Hbig; [|done].
  apply Z.leb_le in Hbig. unfold exact in Hn.
  assert (2 ^ 53 < 2 ^ 1024) by reflexivity. lia.
Qed.

Lemma number_arg_exact n : exact n -> number_arg (Fin n) = Some n.
Proof.
  unfold exact, number_arg. intros Hn.
  destruct (Z.abs n <? 10 ^ 17) eqn:Hlt; [done|].
  apply Z.ltb_ge in Hlt. assert (2 ^ 53 < 10 ^ 17) by reflexivity. lia.
Qed.

Lemma through_lua_exact n : exact n -> through_lua n = n.
Proof.
  intros Hn. unfold through_lua. rewrite (round_double_exact _ Hn).
  destruct (2 ^ 63 <=? n) eqn:Hbig; [|done].
  apply Z.leb_le in Hbig. unfold exact in Hn.
  assert (2 ^ 53 < 2 ^ 63) by reflexivity. lia.
Qed.

Lemma int64_bounded n : - 2 ^ 54 <= n <= 2 ^ 54 -> int64 n = true.
Proof.
  intros Hn. unfold int64.
  assert (2 ^ 54 < 2 ^ 63 - 1) by reflexivity.
  apply andb_true_intro. split; apply Z.leb_le; lia.
Qed.

Lemma too_long_exact n : exact n -> too_long n = false.
Proof.
  unfold exact, too_long. intros Hn. apply Z.leb_gt.
  assert (2 ^ 53 < 10 ^ max_str_digits) by reflexivity. lia.
Qed.

Lemma digit_of_range c d : digit_of c = Some d -> 0 <= d <= 9.
Proof.
  unfold digit_of.
  destruct (_ && _) eqn:Hb; [|done]. intros [= <-].
  apply andb_true_iff in Hb as [H1 H2].
  apply Z.leb_le in H1, H2. lia.
Qed.

Lemma count_digits_nonneg s : 0 <= count_digits s.
Proof. induction s as [|c s IH]; simpl; [lia|]. destruct (digit_of c); lia. Qed.

Lemma digits_bound s :
  forall acc prev n,
    0 <= acc -> digits acc prev s = Some n ->
    0 <= n < (acc + 1) * 10 ^ count_digits s.
Proof.
  induction s as [|c s IH]; intros acc prev n Hacc; simpl.
  - destruct prev; [|done]. intros [= <-]. lia.
  - pose proof (count_digits_nonneg s) as Hc.
    destruct (digit_of c) as [d|] eqn:Hd.
    + intros Hn. pose proof (digit_of_range _ _ Hd) as Hr.
      apply IH in Hn; [|lia].
      replace (1 + count_digits s) with (Z.succ (count_digits s)) by lia.
      rewrite Z.pow_succ_r by done. nia.
    + destruct (_ && _); [|done]. intros Hn.
      apply IH in Hn; [|done]. by rewrite Z.add_0_l.
Qed.

Lemma literal_bound t n : literal t = Some n -> 0 <= n < 10 ^ max_str_digits.
Proof.
  unfold literal. destruct (digits 0 false t) as [k|] eqn:Hd; [|done].
  destruct (max_str_digits <? count_digits t) eqn:Hc; [done|].
  intros [= <-]. apply Z.ltb_ge in Hc.
  apply digits_bound in Hd; [|done].
  assert (10 ^ count_digits t <= 10 ^ max_str_digits).
  { apply Z.pow_le_mono_r; [lia|done]. }
  lia.
Qed.

Lemma int_of_str_short s n : int_of_str s = Ok n -> too_long n = false.
Proof.
  unfold int_of_str, too_long. intros H. apply Z.leb_gt.
  assert (Hb : exists k, 0 <= k < 10 ^ max_str_digits /\ (n = k \/ n = - k)).
  { destruct (strip s) as [|c t] eqn:Hs.
    - destruct (literal "") as [k|] eqn:Hl; [|done].
      injection H as <-. exists k. split; [by eapply literal_bound|by left].
    - assert (Hgen : forall u,
                 match literal u with Some k => Ok k | None => Raise ValueError end
                 = Ok n ->
                 exists k, 0 <= k < 10 ^ max_str_digits /\ (n = k \/ n = - k)).
      { intros u Hu. destruct (literal u) as [k|] eqn:Hl; [|done].
        injection Hu as <-. exists k. split; [by eapply literal_bound|by left]. }
      destruct c as [[] [] [] [] [] [] [] []]; try (by apply Hgen in H).
      destruct (literal t) as [k|] eqn:Hl; [|done]. simpl in H.
      injection H as <-. exists k. split; [by eapply literal_bound|by right]. }
  destruct Hb as (k & Hk & [-> | ->]); lia.
Qed.

Lemma env_int_short environ name d n :
  too_long d = false -> env_int environ name d = Ok n -> too_long n = false.
Proof.
  unfold env_int. intros Hd.
  destruct (environ !! name) as [s|]; [apply int_of_str_short|].
  by intros [= <-].
Qed.

Lemma env_int_small environ name d n :
  exact d -> env_int environ name d = Ok n -> too_long n = false.
Proof. intros Hd. apply env_int_short. by apply too_long_exact. Qed.

Lemma small_exact n : -10000 <= n <= 10000 -> exact n.
Proof. unfold exact. assert (10000 < 2 ^ 53) by reflexivity. lia. Qed.

(** ** The script *)

Lemma reserve_script_on key qty dflt (m : gmap string Z) :
  reserve_script key qty dflt m =
    (fst (script_on qty dflt (m !! key)),
     hold key (snd (script_on qty dflt (m !! key))) m).
Proof.
  unfold reserve_script, script_on, redis_GET, redis_SET, redis_DECRBY, hold.
  destruct (m !! key) as [c|] eqn:Hk; simpl.
  - destruct (lnum_lt _ _); simpl; [by rewrite insert_id|].
    destruct (number_arg (tonumber qty)) as [by_|]; simpl;
      [|by rewrite insert_id].
    rewrite Hk. simpl.
    destruct (int64 c && int64 (c - by_)); simpl; [done|by rewrite insert_id].
  - destruct (number_arg (tonumber dflt)) as [v|]; simpl; [|done].
    destruct (lnum_lt _ _); simpl; [done|].
    destruct (number_arg (tonumber qty)) as [by_|]; simpl; [|done].
    rewrite lookup_insert_eq. simpl.
    destruct (int64 v && int64 (v - by_)); simpl; [|done].
    by rewrite insert_insert_eq.
Qed.

Lemma script_on_exact qty dflt old :
  let cur := default dflt old in
  exact qty -> exact cur -> cur - qty <= 2 ^ 53 ->
  script_on qty dflt old =
    if cur <? qty then (Some (-1), Some cur)
    else (Some (cur - qty), Some (cur - qty)).
Proof.
  intros cur Hq Hc Hd. unfold script_on.
  rewrite (tonumber_exact _ Hq).
  assert (Hhead :
    match old with
    | Some c => (Some (tonumber c), Some c)
    | None =>
        match number_arg (tonumber dflt) with
        | Some v => (Some (tonumber dflt), Some v)
        | None => (None, None)
        end
    end = (Some (Fin cur), Some cur)).
  { unfold cur in *. destruct old as [c|]; simpl in *.
    - by rewrite (tonumber_exact _ Hc).
    - by rewrite (tonumber_exact _ Hc), (number_arg_exact _ Hc). }
  rewrite Hhead. cbv beta iota zeta delta [lnum_lt].
  destruct (cur <? qty) eqn:Hlt; [done|].
  apply Z.ltb_ge in Hlt. rewrite (number_arg_exact _ Hq).
  change (default 0 (Some cur)) with cur.
  unfold exact in *.
  rewrite !int64_bounded by lia.
  cbv beta iota zeta delta [andb].
  by rewrite through_lua_exact by (unfold exact; lia).
Qed.

Lemma reserve_script_eq key qty dflt (m : gmap string Z) :
  let cur := default dflt (m !! key) in
  exact qty -> exact cur -> cur - qty <= 2 ^ 53 ->
  reserve_script key qty dflt m =
    if cur <? qty then (Some (-1), <[key := cur]> m)
    else (Some (cur - qty), <[key := cur - qty]> m).
Proof.
  intros cur Hq Hc Hd.
  rewrite reserve_script_on, (script_on_exact _ _ _ Hq Hc Hd). fold cur.
  by destruct (cur <? qty).
Qed.

(** ** The reserve view *)

Lemma fields_missing_request data key q :
  reservation_request data key q -> fields_missing data = Ok false.
Proof.
  intros (d & qv & -> & Hi & Hq & _).
  unfold fields_missing. simpl.
  destruct d as [|kv d]; [done|]. simpl in *.
  rewrite !bool_decide_eq_true_2; eauto.
Qed.

Lemma reserve_request environ data key q dflt w :
  reservation_request data key q ->
  env_int environ "DEFAULT_STOCK" 100 = Ok dflt ->
  store_fault w = None ->
  let cur := current_stock dflt key w in
  exact q -> exact cur -> cur - q <= 2 ^ 53 ->
  reserve environ data w =
    if cur <? q
    then (JsonReserve false cur, set_store (<[key := cur]> (store w)) w)
    else (JsonReserve true (cur - q),
          set_store (<[key := cur - q]> (store w)) w).
Proof.
  intros Hreq Hd Hf cur Hq Hc Hdiff.
  pose proof (fields_missing_request _ _ _ Hreq) as Hm.
  destruct Hreq as (d & qv & -> & Hi & Hq' & Hint).
  unfold reserve, serve, bind, lift, ret. rewrite Hm. simpl.
  rewrite Hi, Hq', Hint, Hd. unfold r_eval. rewrite Hf. simpl.
  rewrite (too_long_exact _ Hq).
  rewrite (env_int_small _ _ _ _ (small_exact 100 ltac:(lia)) Hd). simpl.
  rewrite (reserve_script_eq key q dflt (store w) Hq Hc Hdiff).
  fold (current_stock dflt key w). fold cur.
  destruct (cur <? q) eqn:Hlt.
  - simpl. unfold r_get. simpl. rewrite Hf. simpl.
    by rewrite lookup_insert_eq.
  - apply Z.ltb_ge in Hlt.
    destruct (cur - q =? -1) eqn:He; [lia|done].
Qed.

Lemma order_body_request key q :
  reservation_request (order_body key q) key q.
Proof. exists [("item", PStr key); ("quantity", PInt q)], (PInt q). done. Qed.

Lemma set_store_same w : set_store (store w) w = w.
Proof. by destruct w. Qed.

(** Invariant of a run: what was granted is what left the stock. *)
Lemma reserve_all_run environ dflt key reqs qs :
  env_int environ "DEFAULT_STOCK" 100 = Ok dflt ->
  Forall2 (fun data q => reservation_request data key q /\ 0 < q <= 2 ^ 53)
    reqs qs ->
  forall w,
    store_fault w = None ->
    0 <= current_stock dflt key w <= 2 ^ 53 ->
    let '(resps, w') := reserve_all environ reqs w in
    let s := total_granted qs resps in
    0 <= s <= current_stock dflt key w /\
    current_stock dflt key w' = current_stock dflt key w - s /\
    store_fault w' = None /\
    (reqs <> [] -> is_Some (store w' !! key)) /\
    (is_Some (store w !! key) -> is_Some (store w' !! key)).
Proof.
  intros Hd Hall. induction Hall as [|data q reqs qs [Hreq Hq] Hall IH];
    intros w Hf Hcur; simpl.
  - repeat split; [lia|lia|lia|done|done|done].
  - rewrite (reserve_request _ _ _ _ _ _ Hreq Hd Hf)
      by (unfold exact; lia).
    set (cur := current_stock dflt key w) in *.
    destruct (cur <? q) eqn:Hlt.
    + set (w1 := set_store _ w).
      assert (Hc1 : current_stock dflt key w1 = cur).
      { unfold current_stock, w1. simpl. by rewrite lookup_insert_eq. }
      specialize (IH w1 Hf). rewrite Hc1 in IH. specialize (IH Hcur).
      destruct (reserve_all environ reqs w1) as [resps w2]. simpl.
      destruct IH as (Hs & Hc & Hf2 & _ & Hp).
      repeat split; [lia|lia|lia|done|..];
        intros _; apply Hp; unfold w1; simpl; rewrite lookup_insert_eq; eauto.
    + apply Z.ltb_ge in Hlt.
      set (w1 := set_store _ w).
      assert (Hc1 : current_stock dflt key w1 = cur - q).
      { unfold current_stock, w1. simpl. by rewrite lookup_insert_eq. }
      specialize (IH w1 Hf). rewrite Hc1 in IH.
      specialize (IH ltac:(lia)).
      destruct (reserve_all environ reqs w1) as [resps w2]. simpl.
      destruct IH as (Hs & Hc & Hf2 & _ & Hp).
      repeat split; [lia|lia|lia|done|..];
        intros _; apply Hp; unfold w1; simpl; rewrite lookup_insert_eq; eauto.
Qed.

(** C1, as the code has it. Every series of reservations of positive
    quantities on an item that is not yet in the store, with a default
    stock [D] and quantities that are at most 2^53, grants at most [D] in
    total; the stock that is left is [D] minus what was granted, and
    after every call of the series the stored value is non-negative. *)
Theorem reserve_sequence_never_oversells environ D key reqs qs w :
  env_int environ "DEFAULT_STOCK" 100 = Ok D ->
  0 <= D <= 2 ^ 53 ->
  store w !! key = None ->
  store_fault w = None ->
  Forall2 (fun data q => reservation_request data key q /\ 0 < q <= 2 ^ 53)
    reqs qs ->
  let '(resps, w') := reserve_all environ reqs w in
  let s := total_granted qs resps in
  s <= D /\
  current_stock D key w' = D - s /\
  (reqs <> [] -> store w' !! key = Some (D - s)) /\
  (forall n v,
      store (snd (reserve_all environ (take n reqs) w)) !! key = Some v ->
      0 <= v).
Proof.
  intros Hd HD Hnone Hf Hall.
  assert (Hcur : current_stock D key w = D).
  { unfold current_stock. by rewrite Hnone. }
  pose proof (reserve_all_run _ _ _ _ _ Hd Hall w Hf) as Hrun.
  rewrite Hcur in Hrun. specialize (Hrun HD).
  destruct (reserve_all environ reqs w) as [resps w'].
  destruct Hrun as (Hs & Hc & _ & Hp & _).
  split; [lia|]. split; [done|]. split.
  - intros Hne. destruct (Hp Hne) as [v Hv].
    unfold current_stock in Hc. rewrite Hv in Hc. simpl in Hc. by subst v.
  - intros n v Hv.
    pose proof (reserve_all_run _ _ _ _ _ Hd (Forall2_take _ _ _ n Hall) w Hf)
      as Hn.
    rewrite Hcur in Hn. specialize (Hn HD).
    destruct (reserve_all environ (take n reqs) w) as [rn wn]. simpl in Hv.
    destruct Hn as (Hsn & Hcn & _).
    unfold current_stock in Hcn. rewrite Hv in Hcn. simpl in Hcn. lia.
Qed.

(** C2, as the code has it. A reservation of a quantity [q <= 0] on an item
    whose current stock [C] (the stored value, or the default when the item
    is absent) is non-negative, with [C - q] at most 2^53, is not refused:
    the answer is [success: true, remaining: C - q] and [C - q] is stored,
    which leaves the value at [C] for [q = 0] and raises it for [q < 0]. *)
Theorem reserve_nonpositive_accepted environ data key q dflt w :
  reservation_request data key q ->
  env_int environ "DEFAULT_STOCK" 100 = Ok dflt ->
  store_fault w = None ->
  q <= 0 ->
  0 <= current_stock dflt key w ->
  current_stock dflt key w - q <= 2 ^ 53 ->
  let C := current_stock dflt key w in
  reserve environ data w =
    (JsonReserve true (C - q), set_store (<[key := C - q]> (store w)) w) /\
  C <= C - q.
Proof.
  intros Hreq Hd Hf Hq HC Hb C.
  rewrite (reserve_request _ _ _ _ _ _ Hreq Hd Hf)
    by (unfold exact; lia).
  fold C.
  destruct (C <? q) eqn:Hlt; [apply Z.ltb_lt in Hlt; lia|].
  split; [done|lia].
Qed.

(** C4, as the code has it. A reservation of more than the stored stock
    [C] of an item, with [C] and the quantity between -2^53 and 2^53,
    leaves the state as it was and answers
    [success: false, remaining: C]. *)
Theorem reserve_insufficient_rejected environ data key q dflt C w :
  reservation_request data key q ->
  env_int environ "DEFAULT_STOCK" 100 = Ok dflt ->
  store_fault w = None ->
  store w !! key = Some C ->
  C < q ->
  exact C ->
  exact q ->
  reserve environ data w = (JsonReserve false C, w).
Proof.
  intros Hreq Hd Hf HC Hlt HeC Heq.
  assert (Hcur : current_stock dflt key w = C).
  { unfold current_stock. by rewrite HC. }
  rewrite (reserve_request _ _ _ _ _ _ Hreq Hd Hf)
    by (rewrite ?Hcur; unfold exact in *; lia).
  rewrite Hcur.
  apply Z.ltb_lt in Hlt. rewrite Hlt.
  by rewrite insert_id, set_store_same.
Qed.

Lemma get_inventory_eq item w :
  store_fault w = None ->
  get_inventory item w = (JsonStock item (default 0 (store w !! item)), w).
Proof.
  intros Hf. unfold get_inventory, serve, bind, r_get, ret. rewrite Hf. simpl.
  by destruct (store w !! item).
Qed.

(** C5, as the code has it. With a default and a quantity between -2^53
    and 2^53: on an item that is absent from the store the script first
    writes the default and then decides as if it had been there; the
    written default stays when the reservation is refused for want of
    stock, and [GET /inventory] right after shows the default. *)
Theorem reserve_initializes_default environ data key q dflt w :
  reservation_request data key q ->
  env_int environ "DEFAULT_STOCK" 100 = Ok dflt ->
  store_fault w = None ->
  store w !! key = None ->
  dflt < q ->
  exact dflt ->
  exact q ->
  (forall q',
      reserve_script key q' dflt (store w) =
      reserve_script key q' dflt (<[key := dflt]> (store w))) /\
  exists w',
    reserve environ data w = (JsonReserve false dflt, w') /\
    store w' = <[key := dflt]> (store w) /\
    get_inventory key w' = (JsonStock key dflt, w').
Proof.
  intros Hreq Hd Hf Hnone Hlt Hed Heq. split.
  - intros q'. rewrite !reserve_script_on.
    rewrite Hnone, lookup_insert_eq. unfold script_on.
    rewrite (tonumber_exact _ Hed), (number_arg_exact _ Hed).
    cbv beta iota zeta.
    destruct (lnum_lt (Fin dflt) (tonumber q')); simpl;
      [by rewrite insert_insert_eq|].
    destruct (number_arg (tonumber q')) as [by_|]; simpl;
      [|by rewrite insert_insert_eq].
    destruct (int64 dflt && int64 (dflt - by_)); simpl;
      by rewrite insert_insert_eq.
  - assert (Hcur : current_stock dflt key w = dflt).
    { unfold current_stock. by rewrite Hnone. }
    rewrite (reserve_request _ _ _ _ _ _ Hreq Hd Hf)
      by (rewrite ?Hcur; unfold exact in *; lia).
    rewrite Hcur.
    apply Z.ltb_lt in Hlt. rewrite Hlt.
    eexists. split; [done|]. split; [done|].
    rewrite get_inventory_eq by done. simpl.
    by rewrite lookup_insert_eq.
Qed.

(** C10. [GET /inventory/<item>] leaves the state as it was, whatever the
    store answers; with the store reachable it shows 0 for an absent key
    and the stored value for a present one. *)
Theorem get_inventory_read_only item w :
  snd (get_inventory item w) = w /\
  (store_fault w = None ->
   (store w !! item = None ->
    fst (get_inventory item w) = JsonStock item 0) /\
   (forall n, store w !! item = Some n ->
    fst (get_inventory item w) = JsonStock item n)).
Proof.
  split.
  - unfold get_inventory, serve, bind, r_get, ret.
    destruct (store_fault w); simpl; [done|].
    by destruct (store w !! item).
  - intros Hf. rewrite get_inventory_eq by done. simpl.
    split; [intros ->; done | intros n ->; done].
Qed.

(** ** Broker connection *)

Lemma handshakes_emit ev w :
  handshakes (emit ev w) =
  (handshakes w + if is_handshake ev then 1 else 0)%nat.
Proof.
  unfold handshakes, emit. simpl. rewrite filter_app, length_app. simpl.
  destruct ev; simpl; try rewrite filter_cons_True by done;
    try rewrite filter_cons_False by done; done.
Qed.

Lemma sleeps_emit ev w :
  sleeps (emit ev w) = sleeps w ++ option_list (is_sleep ev).
Proof.
  unfold sleeps, emit. simpl. rewrite omap_app. simpl.
  by destruct (is_sleep ev).
Qed.



Lemma observers_set_connection c w :
  handshakes (set_connection c w) = handshakes w /\
  sleeps (set_connection c w) = sleeps w.
Proof. done. Qed.

Lemma observers_set_channel ch w :
  handshakes (set_channel ch w) = handshakes w /\
  sleeps (set_channel ch w) = sleeps w.
Proof. done. Qed.

Ltac observe :=
  repeat first
    [ rewrite handshakes_emit
    | rewrite sleeps_emit
    | rewrite (proj1 (observers_set_connection _ _))
    | rewrite (proj2 (observers_set_connection _ _))
    | rewrite (proj1 (observers_set_channel _ _))
    | rewrite (proj2 (observers_set_channel _ _)) ];
  simpl; rewrite ?app_nil_r.

Lemma try_connect_fails target host port w :
  attempt_fails (target (handshakes w)) ->
  exists e w1,
    try_connect target host port w = (Raise e, w1) /\
    handshakes w1 = S (handshakes w) /\ sleeps w1 = sleeps w.
Proof.
  unfold try_connect. destruct (target (handshakes w)); simpl; [..|done];
    intros _; eexists _, _; (split; [reflexivity|]);
    observe; (split; [lia|done]).
Qed.


Lemma print_retry_ok e wait w :
  - max_sleep <= wait <= max_sleep ->
  print_retry e wait w = (Ok tt, emit (PrintRetry e wait) w).
Proof.
  intros Hw. unfold print_retry, too_long.
  assert (max_sleep < 10 ^ max_str_digits) by reflexivity.
  destruct (_ <=? _) eqn:E; [apply Z.leb_le in E; lia|done].
Qed.



Lemma try_connect_ok target host port w ch w' :
  try_connect target host port w = (Ok ch, w') ->
  channel w' = Some ch /\ is_Some (connection w').
Proof.
  unfold try_connect. destruct (target (handshakes w)); intros [= <- <-];
    simpl; eauto.
Qed.

Lemma connect_loop_ok target host port base n :
  forall k w ch w',
    connect_loop target host port base n k w = (Ok ch, w') ->
    channel w' = Some ch /\ is_Some (connection w').
Proof.
  induction n as [|n IH]; intros k w ch w'; simpl; [done|].
  destruct (try_connect target host port w) as [[c|e] w1] eqn:Htry.
  - intros [= <- <-]. by eapply try_connect_ok.
  - unfold bind, print_retry, time_sleep.
    destruct (too_long _); [done|].
    destruct (_ || _); [done|].
    destruct (base * (k + 1) <? 0); [done|]. apply IH.
Qed.

(** C7. Once [connect_broker] has returned a channel, both globals are
    set, and every later call, whatever its arguments, the environment
    and the broker, returns that channel and leaves the state, and with
    it the trace of handshakes and queue declarations, as it is. *)
Theorem connect_broker_idempotent environ target max_retries retry_base
    w ch w1 :
  connect_broker environ target max_retries retry_base w = (Ok ch, w1) ->
  (channel w1 = Some ch /\ is_Some (connection w1)) /\
  forall environ' target' max_retries' retry_base',
    connect_broker environ' target' max_retries' retry_base' w1 = (Ok ch, w1).
Proof.
  intros Hfirst.
  assert (Hset : channel w1 = Some ch /\ is_Some (connection w1)).
  { revert Hfirst. unfold connect_broker.
    destruct (channel w) as [c|] eqn:Hc, (connection w) as [k|] eqn:Hk;
      try (intros [= <- <-]; eauto; fail);
      unfold bind, lift;
      destruct (arg_or_env max_retries _ _ _); try done;
      destruct (arg_or_env retry_base _ _ _); try done;
      destruct (env_int _ _ _); try done;
      apply connect_loop_ok. }
  split; [done|].
  intros environ' target' a b. unfold connect_broker.
  destruct Hset as [-> [k ->]]. done.
Qed.


(** ** Consumer *)

Lemma callback_well_formed b v key q w :
  json_loads b = Ok v ->
  reservation_request v key q ->
  callback b w = (Ok tt, emit (PrintProcessed v) (inc_processed w)).
Proof.
  intros Hv (d & qv & -> & Hi & Hq & Hint).
  unfold callback, bind, lift, effect. rewrite Hv. simpl.
  by rewrite Hi, Hq, Hint.
Qed.

Lemma callback_malformed b :
  malformed_event b ->
  exists e, malformed_error b e /\ forall w, callback b w = (Raise e, w).
Proof.
  unfold callback, bind, lift, malformed_event, malformed_error.
  destruct (json_loads b) as [v|e]; [|by exists e].
  intros Hbad.
  destruct v as [| | | | | |d]; try (by exists TypeError).
  simpl. destruct (dict_get "item" d) as [x|] eqn:Hi.
  - destruct (dict_get "quantity" d) as [y|] eqn:Hq.
    + exfalso. destruct Hbad as [H|H]; apply H; by eexists _, _.
    + by exists (KeyError "quantity").
  - by exists (KeyError "item").
Qed.

Lemma malformed_error_kind b e :
  malformed_error b e ->
  e = UnicodeDecodeError \/ e = JSONDecodeError \/ e = RecursionError \/
  e = ValueError \/ e = TypeError \/
  e = KeyError "item" \/ e = KeyError "quantity".
Proof.
  unfold malformed_error.
  destruct b as [raw|raw|raw|v]; simpl; try (intros ->; tauto).
  destruct (long_int v); [intros ->; tauto|].
  destruct v as [| | | | | |d]; try (intros ->; tauto).
  destruct (dict_get "item" d); intros ->; tauto.
Qed.

Lemma start_consuming_well_formed pre :
  Forall well_formed_event pre ->
  forall rest w,
    exists w1,
      start_consuming (pre ++ rest) w = start_consuming rest w1 /\
      processed_counter w1 = processed_counter w + Z.of_nat (length pre) /\
      store w1 = store w.
Proof.
  induction 1 as [|b pre (v & key & q & Hv & Hreq) _ IH]; intros rest w.
  - exists w. simpl. split; [done|]. split; [lia|done].
  - simpl app. cbn [start_consuming].
    rewrite (callback_well_formed _ _ _ _ _ Hv Hreq).
    destruct (IH rest (emit (PrintProcessed v) (inc_processed w)))
      as (w1 & -> & Hp & Hs).
    exists w1. split; [done|]. split; [|done].
    rewrite Hp. simpl. lia.
Qed.

(** C3, as the code has it. The handler raises on a message whose body
    does not decode or has no [item] or no [quantity] field, and leaves
    the state as it was: nothing is counted and nothing is printed. The
    exception is the decoder's own ([UnicodeDecodeError],
    [JSONDecodeError], [RecursionError] or [ValueError]), [TypeError] for
    a value that is not an object, or [KeyError] for the missing field.
    It leaves the consuming loop, which stops at that message: the
    deliveries after it are not handled. *)
Theorem malformed_event_stops_consumer b :
  malformed_event b ->
  exists e,
    malformed_error b e /\
    (e = UnicodeDecodeError \/ e = JSONDecodeError \/ e = RecursionError \/
     e = ValueError \/ e = TypeError \/
     e = KeyError "item" \/ e = KeyError "quantity") /\
    (forall w, callback b w = (Raise e, w)) /\
    (forall pre rest w,
        Forall well_formed_event pre ->
        exists w',
          start_consuming (pre ++ b :: rest) w = (Crashed e, w') /\
          processed_counter w' = processed_counter w + Z.of_nat (length pre)) /\
    (forall environ target pre rest w ch w1,
        connect_broker environ target None None w = (Ok ch, w1) ->
        Forall well_formed_event pre ->
        fst (start_consumer environ target (pre ++ b :: rest) w) = Crashed e).
Proof.
  intros Hbad. destruct (callback_malformed b Hbad) as (e & Hkind & He).
  assert (Hloop : forall pre rest w,
             Forall well_formed_event pre ->
             exists w',
               start_consuming (pre ++ b :: rest) w = (Crashed e, w') /\
               processed_counter w' = processed_counter w + Z.of_nat (length pre)).
  { intros pre rest w Hpre.
    destruct (start_consuming_well_formed pre Hpre (b :: rest) w)
      as (w1 & -> & Hp & _).
    exists w1. simpl. by rewrite He. }
  exists e. split; [done|]. split; [by eapply malformed_error_kind|].
  split; [done|]. split; [done|].
  intros environ target pre rest w ch w1 Hconn Hpre.
  unfold start_consumer. rewrite Hconn.
  destruct (Hloop pre rest (emit (BasicConsume ch "order_created" true) w1) Hpre)
    as (w' & -> & _). done.
Qed.

(** C9. Handling a well-formed order event adds exactly one to the
    processed-orders counter and leaves the store as it was. *)
Theorem callback_counts_order b w :
  well_formed_event b ->
  exists w',
    callback b w = (Ok tt, w') /\
    processed_counter w' = processed_counter w + 1 /\
    store w' = store w /\
    store_fault w' = store_fault w.
Proof.
  intros (v & key & q & Hv & Hreq).
  rewrite (callback_well_formed _ _ _ _ _ Hv Hreq). by eexists.
Qed.

(** ** Outcomes of [POST /reserve] *)

Lemma fields_missing_lacking data :
  lacks_fields data -> fields_missing data = Ok true.
Proof.
  unfold fields_missing. intros [Hf | (d & -> & Hd)].
  - by rewrite Hf.
  - destruct d as [|kv d]; [done|].
    cbn [truthy negb py_in].
    destruct (dict_get "item" (kv :: d)) as [x|] eqn:Hi.
    + destruct Hd as [Hd|Hd]; [done|]. rewrite Hd.
      rewrite bool_decide_eq_true_2 by eauto.
      by rewrite bool_decide_eq_false_2 by (by intros [? ?]).
    + by rewrite bool_decide_eq_false_2 by (by intros [? ?]).
Qed.

Lemma reserve_store_fault environ data d w :
  store_fault w = Some d ->
  forall success remaining,
    fst (reserve environ data w) <> JsonReserve success remaining.
Proof.
  intros Hf success remaining.
  unfold reserve, serve, bind, lift, ret.
  destruct (fields_missing data) as [[|]|]; simpl; try done.
  destruct (subscript data "item"); simpl; try done.
  destruct (subscript data "quantity") as [qv|]; simpl; try done.
  destruct (py_int qv); simpl; try done.
  destruct (env_int environ "DEFAULT_STOCK" 100); simpl; try done.
  unfold r_eval. by rewrite Hf.
Qed.

(** C8, as the code has it. [POST /reserve] tells three outcomes apart: a
    body that is missing or empty, or an object without [item] or without
    [quantity], gets the 400 response; a request the store fails on gets
    the 500 response of the view; a request for more than the stock, both
    between -2^53 and 2^53, gets a 200 response with [success: false] and
    the stock. While the store fails, no response is a reservation
    result. *)
Theorem reserve_outcomes_distinct environ w :
  (forall data,
      lacks_fields data ->
      reserve environ data w = (JsonRequired, w) /\ status JsonRequired = 400) /\
  (forall data key q dflt d,
      reservation_request data key q ->
      env_int environ "DEFAULT_STOCK" 100 = Ok dflt ->
      store_fault w = Some d ->
      reserve environ data w = (JsonRedisError (RedisError d), w) /\
      status (JsonRedisError (RedisError d)) = 500) /\
  (forall data key q dflt,
      reservation_request data key q ->
      env_int environ "DEFAULT_STOCK" 100 = Ok dflt ->
      store_fault w = None ->
      current_stock dflt key w < q ->
      exact (current_stock dflt key w) ->
      exact q ->
      let C := current_stock dflt key w in
      fst (reserve environ data w) = JsonReserve false C /\
      status (JsonReserve false C) = 200) /\
  (forall data d success remaining,
      store_fault w = Some d ->
      fst (reserve environ data w) <> JsonReserve success remaining).
Proof.
  split; [|split; [|split]].
  - intros data Hl. split; [|done].
    unfold reserve, serve, bind, lift, ret.
    by rewrite (fields_missing_lacking _ Hl).
  - intros data key q dflt d Hreq Hd Hf. split; [|done].
    pose proof (fields_missing_request _ _ _ Hreq) as Hm.
    destruct Hreq as (dd & qv & -> & Hi & Hq & Hint).
    unfold reserve, serve, bind, lift, ret. rewrite Hm. simpl.
    rewrite Hi, Hq, Hint, Hd. unfold r_eval. by rewrite Hf.
  - intros data key q dflt Hreq Hd Hf Hlt HeC Heq C. split; [|done].
    rewrite (reserve_request _ _ _ _ _ _ Hreq Hd Hf)
      by (unfold exact in *; lia).
    fold C. apply Z.ltb_lt in Hlt. fold C in Hlt. by rewrite Hlt.
  - intros data d success remaining Hf. by eapply reserve_store_fault.
Qed.

(** ** Scenarios *)

Example int_of_str_plain : int_of_str "30" = Ok 30.
Proof. reflexivity. Qed.
Example int_of_str_signed : int_of_str " -1_000 " = Ok (-1000).
Proof. reflexivity. Qed.
Example int_of_str_word : int_of_str "abc" = Raise ValueError.
Proof. reflexivity. Qed.
Example int_of_str_empty : int_of_str "" = Raise ValueError.
Proof. reflexivity. Qed.
Example int_of_str_underscores : int_of_str "1__0" = Raise ValueError.
Proof. reflexivity. Qed.

Example scenario_reserve_30 :
  let '(resp, w) := reserve ∅ (order_body "widget" 30) boot in
  resp = JsonReserve true 70 /\ fst (get_inventory "widget" w) = JsonStock "widget" 70.
Proof. vm_compute. split; reflexivity. Qed.

Example scenario_reserve_1000 :
  let w := set_store {[ "widget" := 70 ]} boot in
  reserve ∅ (order_body "widget" 1000) w = (JsonReserve false 70, w).
Proof. vm_compute. reflexivity. Qed.

Example scenario_missing_item :
  reserve ∅ (PDict [("quantity", PInt 5)]) boot = (JsonRequired, boot).
Proof. reflexivity. Qed.

Example scenario_event :
  let w := set_store {[ "widget" := 70 ]} boot in
  let '(r, w') := callback (Json (order_body "widget" 30)) w in
  r = Ok tt /\ processed_counter w' = 1 /\ store w' = store w.
Proof. vm_compute. repeat split; reflexivity. Qed.

Example scenario_fifty_reservations :
  let '(resps, w) :=
    reserve_all stock60 (replicate 50 (order_body "gadget" 2)) boot in
  total_granted (replicate 50 2) resps = 60 /\
  store w !! "gadget" = Some 0.
Proof. vm_compute. split; reflexivity. Qed.

Example reserve_zero_quantity :
  let w := set_store {[ "widget" := 70 ]} boot in
  reserve ∅ (order_body "widget" 0) w = (JsonReserve true 70, w).
Proof. reflexivity. Qed.

Example reserve_array_body :
  reserve ∅ (PList [PStr "item"; PStr "quantity"]) boot
  = (Uncaught TypeError, boot).
Proof. reflexivity. Qed.

Example reserve_store_down :
  let w := World {[ "widget" := 70 ]} (Some "connection refused") None None 0 [] in
  reserve ∅ (order_body "widget" 30) w
  = (JsonRedisError (RedisError "connection refused"), w).
Proof. reflexivity. Qed.

Example callback_missing_item :
  callback (Json (PDict [("quantity", PInt 5)])) boot
  = (Raise (KeyError "item"), boot).
Proof. reflexivity. Qed.

Example connect_broker_negative_base :
  let '(r, w) := connect_broker ∅ refusing (Some 3) (Some (-1)) boot in
  r = Raise ValueError /\ handshakes w = 1%nat.
Proof. vm_compute. split; reflexivity. Qed.

Example connect_broker_second_attempt :
  let target n := if (n =? 0)%nat then Refused (AMQPError "refused") else Ready 7 9 in
  let '(r, w) := connect_broker ∅ target None None boot in
  r = Ok 9%nat /\ sleeps w = [2] /\ handshakes w = 2%nat /\
  channel w = Some 9%nat /\ connection w = Some 7%nat.
Proof. vm_compute. repeat split; reflexivity. Qed.

Example int_of_str_control :
  int_of_str (String "031"%char "7") = Raise ValueError.
Proof. reflexivity. Qed.

Example reserve_rounded_stock :
  let w := set_store {[ "widget" := 2 ^ 53 + 1 ]} boot in
  reserve ∅ (order_body "widget" (2 ^ 53 + 1)) w
  = (JsonReserve true 1, set_store {[ "widget" := 1 ]} boot).
Proof. reflexivity. Qed.

Example reserve_sentinel_collision :
  let w := set_store {[ "widget" := 2 ^ 53 + 3 ]} boot in
  reserve ∅ (order_body "widget" (2 ^ 53 + 4)) w
  = (JsonReserve false (-1), set_store {[ "widget" := -1 ]} boot).
Proof. reflexivity. Qed.

Example reserve_decrby_overflow :
  let w := set_store {[ "widget" := 2 ^ 63 - 1 ]} boot in
  reserve ∅ (order_body "widget" (-1)) w = (JsonRedisError ResponseError, w).
Proof. reflexivity. Qed.

Example connect_broker_long_wait :
  let '(r, w) := connect_broker ∅ refusing (Some 3) (Some 10000000000) boot in
  r = Raise OverflowError /\ handshakes w = 1%nat.
Proof. vm_compute. split; reflexivity. Qed.

Example callback_bad_encoding :
  callback (BadEncoding "") boot = (Raise UnicodeDecodeError, boot).
Proof. reflexivity. Qed.

(** ** The properties at concrete inputs *)

(** C1 fails as stated: with a default of 2^53 a first reservation of
    2^53 + 1 is granted, which is more than the default. *)
Lemma reserve_rounding_counterexample :
  env_int two53 "DEFAULT_STOCK" 100 = Ok (2 ^ 53) /\
  store boot !! "widget" = None /\
  let '(resps, w') :=
    reserve_all two53 [order_body "widget" (2 ^ 53 + 1)] boot in
  resps = [JsonReserve true 0] /\
  2 ^ 53 < total_granted [2 ^ 53 + 1] resps /\
  store w' !! "widget" = Some 0.
Proof. split; [reflexivity|]. split; [reflexivity|]. vm_compute. done. Qed.

Lemma reserve_sequence_never_oversells_witness :
  let '(resps, w') :=
    reserve_all stock60 (map (order_body "widget") [40; 30; 20]) boot in
  let s := total_granted [40; 30; 20] resps in
  s <= 60 /\
  current_stock 60 "widget" w' = 60 - s /\
  (map (order_body "widget") [40; 30; 20] <> [] ->
   store w' !! "widget" = Some (60 - s)) /\
  (forall n v,
      store (snd (reserve_all stock60
                    (take n (map (order_body "widget") [40; 30; 20])) boot))
        !! "widget" = Some v ->
      0 <= v).
Proof.
  apply (reserve_sequence_never_oversells stock60 60 "widget"
           (map (order_body "widget") [40; 30; 20]) [40; 30; 20] boot).
  - reflexivity.
  - assert (60 < 2 ^ 53) by reflexivity. lia.
  - reflexivity.
  - reflexivity.
  - assert (60 < 2 ^ 53) by reflexivity.
    repeat constructor; try apply order_body_request; lia.
Defined.

(** C2 fails as stated: reserving [-5] of an item with stock 70 reports
    success and leaves 75 in the store. *)
Lemma reserve_negative_counterexample :
  let w := set_store {[ "widget" := 70 ]} boot in
  -5 <= 0 /\
  store w !! "widget" = Some 70 /\
  reserve ∅ (order_body "widget" (-5)) w =
    (JsonReserve true 75, set_store {[ "widget" := 75 ]} boot).
Proof. split; [lia|]. split; reflexivity. Qed.

Lemma reserve_nonpositive_accepted_witness :
  let w := set_store {[ "widget" := 70 ]} boot in
  reserve ∅ (order_body "widget" (-5)) w =
    (JsonReserve true (70 - -5),
     set_store (<["widget" := 70 - -5]> (store w)) w) /\
  70 <= 70 - -5.
Proof.
  intros w.
  assert (H0 : 0 <= current_stock 100 "widget" w) by (vm_compute; discriminate).
  assert (H1 : current_stock 100 "widget" w - -5 <= 2 ^ 53)
    by (vm_compute; discriminate).
  exact (reserve_nonpositive_accepted ∅ (order_body "widget" (-5)) "widget"
           (-5) 100 w (order_body_request _ _) eq_refl eq_refl
           ltac:(lia) H0 H1).
Defined.

(** C3 fails as stated: on a body that does not decode the handler raises,
    and the exception ends [start_consumer]; the order delivered next is
    never counted. *)
Lemma consumer_crash_counterexample :
  let b := Garbage "{not json" in
  malformed_event b /\
  callback b boot = (Raise JSONDecodeError, boot) /\
  fst (start_consumer ∅ accepting [b; Json (order_body "widget" 30)] boot)
    = Crashed JSONDecodeError /\
  processed_counter
    (snd (start_consumer ∅ accepting [b; Json (order_body "widget" 30)] boot))
    = 0.
Proof. split; [exact I|]. repeat split; reflexivity. Qed.

Lemma malformed_event_stops_consumer_witness :
  (forall w,
      callback (Json (PDict [("quantity", PInt 5)])) w
      = (Raise (KeyError "item"), w)) /\
  fst (start_consumer ∅ accepting
         [Json (order_body "widget" 30); Json (PDict [("quantity", PInt 5)])]
         boot) = Crashed (KeyError "item").
Proof.
  destruct (malformed_event_stops_consumer (Json (PDict [("quantity", PInt 5)])))
    as (e & Hkind & _ & Hcb & _ & Hloop).
  - left. intros (d & x & [= <-] & Hx). discriminate Hx.
  - vm_compute in Hkind. subst e. split; [exact Hcb|].
    apply (Hloop ∅ accepting [Json (order_body "widget" 30)] [] boot
             1%nat (snd (connect_broker ∅ accepting None None boot))).
    + reflexivity.
    + constructor; [|constructor].
      exists (order_body "widget" 30), "widget", 30.
      split; [reflexivity|apply order_body_request].
Defined.

(** C4 fails as stated: with 2^53 in stock a reservation of 2^53 + 1,
    which is more, is granted and empties the stock. *)
Lemma reserve_insufficient_counterexample :
  let w := set_store {[ "widget" := 2 ^ 53 ]} boot in
  store w !! "widget" = Some (2 ^ 53) /\
  2 ^ 53 < 2 ^ 53 + 1 /\
  reserve ∅ (order_body "widget" (2 ^ 53 + 1)) w
  = (JsonReserve true 0, set_store {[ "widget" := 0 ]} boot).
Proof. split; [reflexivity|]. split; [lia|reflexivity]. Qed.

Lemma reserve_insufficient_rejected_witness :
  let w := set_store {[ "widget" := 70 ]} boot in
  reserve ∅ (order_body "widget" 1000) w = (JsonReserve false 70, w).
Proof.
  apply (reserve_insufficient_rejected ∅ (order_body "widget" 1000) "widget"
           1000 100 70 (set_store {[ "widget" := 70 ]} boot)).
  - apply order_body_request.
  - reflexivity.
  - reflexivity.
  - reflexivity.
  - lia.
  - apply small_exact. lia.
  - apply small_exact. lia.
Defined.

(** C5 fails as stated: with a default of 2^53 + 1 the script writes 2^53,
    and that, not the default, is what [GET /inventory] shows after the
    refused reservation. *)
Lemma reserve_default_counterexample :
  env_int two53_1 "DEFAULT_STOCK" 100 = Ok (2 ^ 53 + 1) /\
  let '(resp, w') := reserve two53_1 (order_body "widget" (2 ^ 53 + 10)) boot in
  resp = JsonReserve false (2 ^ 53) /\
  get_inventory "widget" w' = (JsonStock "widget" (2 ^ 53), w') /\
  2 ^ 53 <> 2 ^ 53 + 1.
Proof. split; [reflexivity|]. vm_compute. done. Qed.

Lemma reserve_initializes_default_witness :
  exists w',
    reserve ∅ (order_body "widget" 1000) boot = (JsonReserve false 100, w') /\
    store w' = <["widget" := 100]> (store boot) /\
    get_inventory "widget" w' = (JsonStock "widget" 100, w').
Proof.
  apply (reserve_initializes_default ∅ (order_body "widget" 1000) "widget"
           1000 100 boot).
  - apply order_body_request.
  - reflexivity.
  - reflexivity.
  - reflexivity.
  - lia.
  - apply small_exact. lia.
  - apply small_exact. lia.
Defined.



Lemma connect_broker_idempotent_witness :
  let w1 := snd (connect_broker ∅ accepting None None boot) in
  handshakes w1 = 1%nat /\
  connect_broker stock60 refusing (Some 5) None w1 = (Ok 1%nat, w1).
Proof.
  split; [reflexivity|].
  apply (connect_broker_idempotent ∅ accepting None None boot 1%nat).
  reflexivity.
Defined.

(** C8 fails as stated: a body whose quantity is not a number is
    malformed, yet the answer is the framework's 500, the status of a store
    failure, and not the 400 response. *)
Lemma reserve_malformed_counterexample :
  let data := PDict [("item", PStr "widget"); ("quantity", PStr "abc")] in
  malformed_request data /\
  reserve ∅ data boot = (Uncaught ValueError, boot) /\
  status (fst (reserve ∅ data boot)) = 500.
Proof.
  split; [|split; reflexivity].
  intros (key & q & d & qv & [= <-] & _ & [= <-] & Hint).
  discriminate Hint.
Qed.

Lemma reserve_outcomes_distinct_witness :
  let w := set_store {[ "widget" := 70 ]} boot in
  let down := World {[ "widget" := 70 ]} (Some "timeout") None None 0 [] in
  reserve ∅ (PDict [("quantity", PInt 5)]) w = (JsonRequired, w) /\
  reserve ∅ (order_body "widget" 30) down
    = (JsonRedisError (RedisError "timeout"), down) /\
  fst (reserve ∅ (order_body "widget" 1000) w) = JsonReserve false 70 /\
  fst (reserve ∅ (order_body "widget" 1000) down) <> JsonReserve false 70.
Proof.
  intros w down. split; [|split; [|split]].
  - apply (proj1 (reserve_outcomes_distinct ∅ w)).
    right. exists [("quantity", PInt 5)].
    split; [reflexivity|]. left. reflexivity.
  - exact (proj1 (proj1 (proj2 (reserve_outcomes_distinct ∅ down))
                    (order_body "widget" 30) "widget" 30 100 "timeout"
                    (order_body_request _ _) eq_refl eq_refl)).
  - assert (Hlt : current_stock 100 "widget" w < 1000) by reflexivity.
    assert (He : exact (current_stock 100 "widget" w))
      by (apply small_exact; vm_compute; split; discriminate).
    exact (proj1 (proj1 (proj2 (proj2 (reserve_outcomes_distinct ∅ w)))
                    (order_body "widget" 1000) "widget" 1000 100
                    (order_body_request _ _) eq_refl eq_refl Hlt He
                    (small_exact 1000 ltac:(lia)))).
  - exact (proj2 (proj2 (proj2 (reserve_outcomes_distinct ∅ down)))
             (order_body "widget" 1000) "timeout" false 70 eq_refl).
Defined.

Lemma callback_counts_order_witness :
  let w := set_store {[ "widget" := 70 ]} boot in
  exists w',
    callback (Json (order_body "widget" 30)) w = (Ok tt, w') /\
    processed_counter w' = processed_counter w + 1 /\
    store w' = store w /\
    store_fault w' = store_fault w.
Proof.
  apply (callback_counts_order (Json (order_body "widget" 30))
           (set_store {[ "widget" := 70 ]} boot)).
  exists (order_body "widget" 30), "widget", 30.
  split; [reflexivity|apply order_body_request].
Defined.

Lemma get_inventory_read_only_witness :
  let w := set_store {[ "widget" := 70 ]} boot in
  snd (get_inventory "widget" w) = w /\
  fst (get_inventory "gadget" w) = JsonStock "gadget" 0 /\
  fst (get_inventory "widget" w) = JsonStock "widget" 70.
Proof.
  intros w. split; [|split].
  - exact (proj1 (get_inventory_read_only "widget" w)).
  - exact (proj1 (proj2 (get_inventory_read_only "gadget" w) eq_refl) eq_refl).
  - exact (proj2 (proj2 (get_inventory_read_only "widget" w) eq_refl)
             70 eq_refl).
Defined.

(** * Further properties *)

(** ** The script *)

(** X1. With the quantity and the stock the script reads (the stored
    value, or the default for an absent key) between -2^53 and 2^53, and
    their difference at most 2^53, the script answers [-1] exactly when
    the stock is below the quantity; any other answer is the new stock,
    which is not negative and is what the key then holds. No other key is
    written. *)
Theorem reserve_script_sentinel key qty dflt (m : gmap string Z) :
  let cur := default dflt (m !! key) in
  exact qty -> exact cur -> cur - qty <= 2 ^ 53 ->
  exists res m',
    reserve_script key qty dflt m = (Some res, m') /\
    (res = -1 <-> cur < qty) /\
    (res <> -1 -> res = cur - qty /\ 0 <= res /\ m' !! key = Some res) /\
    (res = -1 -> m' !! key = Some cur) /\
    (forall k, k <> key -> m' !! k = m !! k).
Proof.
  intros cur Hq Hc Hd.
  rewrite (reserve_script_eq key qty dflt m Hq Hc Hd). fold cur.
  destruct (cur <? qty) eqn:Hlt.
  - apply Z.ltb_lt in Hlt. eexists _, _. split; [reflexivity|].
    repeat split; try done.
    + intros _. by rewrite lookup_insert_eq.
    + intros k Hk. by rewrite lookup_insert_ne.
  - apply Z.ltb_ge in Hlt. eexists _, _. split; [reflexivity|].
    repeat split; try lia.
    + by rewrite lookup_insert_eq.
    + intros k Hk. by rewrite lookup_insert_ne.
Qed.

(** ** The reserve view on every body *)

Lemma hold_lookup key held (m : gmap string Z) k :
  k <> key -> hold key held m !! k = m !! k.
Proof.
  intros Hk. unfold hold. destruct held; [|done]. by rewrite lookup_insert_ne.
Qed.

(** What a call of [reserve] can do to the state: nothing, or one run of
    the script on the key the item encodes to. *)
Lemma reserve_state environ data w :
  snd (reserve environ data w) = w \/
  exists item key qv qty dflt,
    subscript data "item" = Ok item /\ redis_encode item = Ok key /\
    subscript data "quantity" = Ok qv /\ py_int qv = Ok qty /\
    env_int environ "DEFAULT_STOCK" 100 = Ok dflt /\
    store_fault w = None /\
    snd (reserve environ data w) =
      set_store
        (hold key (snd (script_on qty dflt (store w !! key))) (store w)) w.
Proof.
  unfold reserve, serve, bind, lift, ret.
  destruct (fields_missing data) as [[|]|]; simpl; auto.
  destruct (subscript data "item") as [item|] eqn:Hitem; simpl; auto.
  destruct (subscript data "quantity") as [qv|]; simpl; auto.
  destruct (py_int qv) as [qty|] eqn:Hint; simpl; auto.
  destruct (env_int environ "DEFAULT_STOCK" 100) as [dflt|] eqn:Hd; simpl; auto.
  unfold r_eval, r_get.
  destruct (store_fault w) eqn:Hf; simpl; auto.
  destruct (redis_encode item) as [key|] eqn:Hkey; simpl; auto.
  destruct (too_long qty || too_long dflt); simpl; auto.
  right. exists item, key, qv, qty, dflt. repeat (split; [done|]).
  rewrite reserve_script_on.
  destruct (fst (script_on qty dflt (store w !! key))) as [res|]; simpl;
    [|done].
  destruct (res =? -1); simpl; [|done].
  rewrite ?Hf; simpl. done.
Qed.

(** X2. Whatever the body, [reserve] leaves the broker globals, the counter,
    the trace and the store's availability alone, and changes the stock of
    no key other than the one its item encodes to. *)
Theorem reserve_frame environ data w :
  let w' := snd (reserve environ data w) in
  store_fault w' = store_fault w /\
  connection w' = connection w /\
  channel w' = channel w /\
  processed_counter w' = processed_counter w /\
  trace w' = trace w /\
  (forall k,
      (forall item, subscript data "item" = Ok item ->
                    redis_encode item <> Ok k) ->
      store w' !! k = store w !! k).
Proof.
  intros w'. subst w'.
  destruct (reserve_state environ data w)
    as [-> | (item & key & qv & qty & dflt & Hi & Hk & _ & _ & _ & _ & ->)];
    [done|].
  repeat (split; [done|]). intros k Hne. simpl.
  apply hold_lookup. intros ->. by eapply Hne.
Qed.

(** X3. While the store fails, no call of [reserve] changes the state or
    answers with status 200. *)
Theorem reserve_store_fault_no_effect environ data d w :
  store_fault w = Some d ->
  snd (reserve environ data w) = w /\
  status (fst (reserve environ data w)) <> 200.
Proof.
  intros Hf. unfold reserve, serve, bind, lift, ret.
  destruct (fields_missing data) as [[|]|]; simpl; try done.
  destruct (subscript data "item") as [item|]; simpl; try done.
  destruct (subscript data "quantity") as [qv|]; simpl; try done.
  destruct (py_int qv) as [qty|]; simpl; try done.
  destruct (env_int environ "DEFAULT_STOCK" 100) as [dflt|]; simpl; try done.
  unfold r_eval. rewrite Hf. done.
Qed.

Lemma script_on_nonneg qty dflt old v :
  exact qty -> 0 <= dflt <= 2 ^ 53 ->
  (forall c, old = Some c -> 0 <= c) ->
  snd (script_on qty dflt old) = Some v -> 0 <= v.
Proof.
  intros Hq Hd Hold. unfold script_on.
  rewrite (tonumber_exact _ Hq).
  assert (Hed : exact dflt) by (unfold exact; lia).
  rewrite (tonumber_exact _ Hed), (number_arg_exact _ Hed),
    (number_arg_exact _ Hq).
  destruct old as [c|]; cbv beta iota zeta.
  - specialize (Hold c eq_refl).
    destruct (lnum_lt (tonumber c) (Fin qty)) eqn:Hlt;
      [simpl; by intros [= <-]|].
    change (default 0 (Some c)) with c.
    destruct (int64 c && int64 (c - qty)); simpl; intros [= <-]; [|done].
    destruct (Z_le_gt_dec c (2 ^ 53)) as [Hsmall|Hbig].
    + rewrite tonumber_exact in Hlt by (unfold exact; lia).
      simpl in Hlt. apply Z.ltb_ge in Hlt. lia.
    + unfold exact in Hq. lia.
  - destruct (lnum_lt (Fin dflt) (Fin qty)) eqn:Hlt;
      [simpl; intros [= <-]; lia|].
    simpl in Hlt. apply Z.ltb_ge in Hlt.
    change (default 0 (Some dflt)) with dflt.
    destruct (int64 dflt && int64 (dflt - qty)); simpl; intros [= <-]; lia.
Qed.

Lemma reserve_keeps_nonneg environ data w :
  default_nonneg environ -> exact_quantity data -> stock_nonneg w ->
  stock_nonneg (snd (reserve environ data w)).
Proof.
  intros Hd Hq Hw.
  destruct (reserve_state environ data w)
    as [-> | (item & key & qv & qty & dflt & _ & _ & Hqv & Hint & Hdf & _ & ->)];
    [done|].
  unfold stock_nonneg in *. simpl.
  destruct (snd (script_on qty dflt (store w !! key))) as [v|] eqn:Hv;
    simpl; [|done].
  apply map_Forall_insert_2; [|done].
  apply (script_on_nonneg qty dflt (store w !! key) v); try done.
  - by apply (Hq qv).
  - by apply (proj2 Hd).
  - intros c Hc. by apply (Hw key c).
Qed.

(** X4. With a default between 0 and 2^53 and quantities between -2^53
    and 2^53, no series of calls of [reserve], whatever the bodies and the
    signs of the quantities, makes a stored count negative;
    [GET /inventory] then never shows a negative stock. *)
Theorem reserve_all_keeps_nonneg environ reqs w :
  default_nonneg environ ->
  Forall exact_quantity reqs ->
  stock_nonneg w ->
  let w' := snd (reserve_all environ reqs w) in
  stock_nonneg w' /\
  forall item n,
    fst (get_inventory item w') = JsonStock item n -> 0 <= n.
Proof.
  intros Hd Hq Hw.
  assert (Hinv : stock_nonneg (snd (reserve_all environ reqs w))).
  { revert w Hw. induction Hq as [|data reqs Hdata _ IH]; intros w Hw; simpl;
      [done|].
    pose proof (reserve_keeps_nonneg environ data w Hd Hdata Hw) as H1.
    destruct (reserve environ data w) as [resp w1]. simpl in H1.
    specialize (IH w1 H1).
    destruct (reserve_all environ reqs w1) as [resps w2]. done. }
  simpl. split; [done|].
  intros item n. set (w' := snd (reserve_all environ reqs w)) in *.
  unfold get_inventory, serve, bind, r_get, ret.
  destruct (store_fault w'); simpl; [done|].
  destruct (store w' !! item) as [v|] eqn:Hv; simpl; intros [= <-]; [|lia].
  by apply (Hinv item v).
Qed.

(** ** Reservations of well-formed requests *)

Lemma hold_same key (m : gmap string Z) : hold key (m !! key) m = m.
Proof.
  unfold hold. destruct (m !! key) eqn:Hk; [|done]. by rewrite insert_id.
Qed.

Lemma hold_at key held (m : gmap string Z) :
  (held = None -> m !! key = None) -> hold key held m !! key = held.
Proof.
  unfold hold. destruct held; [intros _; by rewrite lookup_insert_eq|].
  intros H. by apply H.
Qed.

Lemma script_on_held qty dflt old :
  snd (script_on qty dflt old) = None -> old = None.
Proof.
  unfold script_on. destruct old as [c|]; [|done].
  cbv beta iota zeta.
  destruct (lnum_lt _ _); [done|].
  destruct (number_arg (tonumber qty)); [|done].
  by destruct (_ && _).
Qed.

(** A well-formed request on a reachable store, whatever its numbers. *)
Lemma reserve_request_on environ data key q dflt w :
  reservation_request data key q ->
  env_int environ "DEFAULT_STOCK" 100 = Ok dflt ->
  store_fault w = None ->
  reserve environ data w =
    (fst (request_on q dflt (store w !! key)),
     set_store
       (hold key (snd (request_on q dflt (store w !! key))) (store w)) w).
Proof.
  intros Hreq Hd Hf.
  pose proof (fields_missing_request _ _ _ Hreq) as Hm.
  destruct Hreq as (d & qv & -> & Hi & Hq' & Hint).
  unfold reserve, serve, bind, lift, ret. rewrite Hm. simpl.
  rewrite Hi, Hq', Hint, Hd. unfold r_eval, request_on. rewrite Hf. simpl.
  destruct (too_long q || too_long dflt); simpl.
  { by rewrite hold_same, set_store_same. }
  rewrite reserve_script_on.
  pose proof (script_on_held q dflt (store w !! key)) as Hheld.
  destruct (script_on q dflt (store w !! key)) as [res held]. simpl in *.
  destruct res as [n|]; simpl; [|done].
  destruct (n =? -1); simpl; [|done].
  unfold r_get. simpl. rewrite Hf. simpl.
  rewrite hold_at; [done|].
  intros Hn. by apply Hheld.
Qed.

Lemma reserve_request_after environ data key q dflt w :
  reservation_request data key q ->
  env_int environ "DEFAULT_STOCK" 100 = Ok dflt ->
  store_fault w = None ->
  let cur := current_stock dflt key w in
  exact q -> exact cur -> cur - q <= 2 ^ 53 ->
  reserve environ data w =
    (answer_for cur q, set_store (<[key := stock_after cur q]> (store w)) w).
Proof.
  intros Hreq Hd Hf cur Hq Hc Hdiff.
  rewrite (reserve_request _ _ _ _ _ _ Hreq Hd Hf Hq Hc Hdiff). fold cur.
  unfold answer_for, stock_after. by destruct (cur <? q).
Qed.

Lemma current_stock_set dflt key k v w :
  current_stock dflt k (set_store (<[key := v]> (store w)) w) =
  if decide (key = k) then v else current_stock dflt k w.
Proof.
  unfold current_stock. simpl. rewrite lookup_insert.
  by destruct (decide (key = k)).
Qed.

(** X5. A reservation of a positive quantity within the current stock [C],
    itself at most 2^53, succeeds: the answer is [success: true] with
    [C - q], which is what the key then holds, and the stock has gone
    down. *)
Theorem reserve_sufficient_granted environ data key q dflt w :
  reservation_request data key q ->
  env_int environ "DEFAULT_STOCK" 100 = Ok dflt ->
  store_fault w = None ->
  0 < q ->
  q <= current_stock dflt key w ->
  current_stock dflt key w <= 2 ^ 53 ->
  let C := current_stock dflt key w in
  reserve environ data w =
    (JsonReserve true (C - q), set_store (<[key := C - q]> (store w)) w) /\
  0 <= C - q < C.
Proof.
  intros Hreq Hd Hf Hq Hle Hmax C.
  rewrite (reserve_request _ _ _ _ _ _ Hreq Hd Hf)
    by (unfold exact; lia).
  fold C.
  destruct (C <? q) eqn:Hlt; [apply Z.ltb_lt in Hlt; lia|].
  split; [done|lia].
Qed.

(** X6. From any state in which the stock of an item, as the engine reads
    it, is [C] between 0 and 2^53, a series of reservations of positive
    quantities that are at most 2^53 grants at most [C] in total and
    leaves [C] minus what it granted. *)
Theorem reserve_all_conserves environ dflt key reqs qs w :
  env_int environ "DEFAULT_STOCK" 100 = Ok dflt ->
  Forall2 (fun data q => reservation_request data key q /\ 0 < q <= 2 ^ 53)
    reqs qs ->
  store_fault w = None ->
  0 <= current_stock dflt key w <= 2 ^ 53 ->
  let C := current_stock dflt key w in
  let '(resps, w') := reserve_all environ reqs w in
  let s := total_granted qs resps in
  0 <= s <= C /\
  current_stock dflt key w' = C - s /\
  0 <= current_stock dflt key w'.
Proof.
  intros Hd Hall Hf HC C.
  pose proof (reserve_all_run _ _ _ _ _ Hd Hall w Hf HC) as Hrun.
  destruct (reserve_all environ reqs w) as [resps w'].
  destruct Hrun as (Hs & Hc & _). fold C in Hs, Hc.
  split; [done|]. split; [done|]. lia.
Qed.

(** X7. A well-formed request on a reachable store, with the quantity and
    the current stock between -2^53 and 2^53 and their difference at most
    2^53, gets a [{success, remaining}] answer, and [GET /inventory] for
    that item right after shows exactly the [remaining], whether the
    reservation was granted or refused. *)
Theorem reserve_then_get_inventory environ data key q dflt w :
  reservation_request data key q ->
  env_int environ "DEFAULT_STOCK" 100 = Ok dflt ->
  store_fault w = None ->
  exact q ->
  exact (current_stock dflt key w) ->
  current_stock dflt key w - q <= 2 ^ 53 ->
  let '(resp, w') := reserve environ data w in
  exists success remaining,
    resp = JsonReserve success remaining /\
    get_inventory key w' = (JsonStock key remaining, w').
Proof.
  intros Hreq Hd Hf Hq Hc Hdiff.
  rewrite (reserve_request _ _ _ _ _ _ Hreq Hd Hf Hq Hc Hdiff).
  destruct (_ <? _); eexists _, _; (split; [reflexivity|]);
    rewrite get_inventory_eq by done; simpl; by rewrite lookup_insert_eq.
Qed.

(** X8. A reservation refused for want of stock, with the stock and the
    quantity between -2^53 and 2^53, can be repeated at will: the same
    request gets the same answer again and the state does not move. *)
Theorem reserve_refusal_repeats environ data key q dflt w :
  reservation_request data key q ->
  env_int environ "DEFAULT_STOCK" 100 = Ok dflt ->
  store_fault w = None ->
  current_stock dflt key w < q ->
  exact (current_stock dflt key w) ->
  exact q ->
  let '(resp, w1) := reserve environ data w in
  resp = JsonReserve false (current_stock dflt key w) /\
  reserve environ data w1 = (resp, w1).
Proof.
  intros Hreq Hd Hf Hlt HeC Heq.
  rewrite (reserve_request_after _ _ _ _ _ _ Hreq Hd Hf)
    by (unfold exact in *; lia).
  set (C := current_stock dflt key w) in *.
  assert (Hs : stock_after C q = C).
  { unfold stock_after. apply Z.ltb_lt in Hlt. by rewrite Hlt. }
  assert (Ha : answer_for C q = JsonReserve false C).
  { unfold answer_for. apply Z.ltb_lt in Hlt. by rewrite Hlt. }
  rewrite Hs, Ha. split; [done|].
  assert (Hcur : current_stock dflt key
                   (set_store (<[key := C]> (store w)) w) = C).
  { by rewrite current_stock_set, decide_True. }
  rewrite (reserve_request_after _ _ _ _ _ _ Hreq Hd)
    by (rewrite ?Hcur; unfold exact in *; (done || lia)).
  rewrite Hcur, Hs, Ha. simpl. by rewrite insert_insert_eq.
Qed.

(** X9. Two reservations of non-negative quantities on one item whose
    stock [C] is at most 2^53 and covers their sum leave the state a
    single reservation of the sum leaves, and the second answer is the
    answer to the sum. *)
Theorem reserve_twice_is_sum environ d1 d2 d12 key q1 q2 dflt w :
  reservation_request d1 key q1 ->
  reservation_request d2 key q2 ->
  reservation_request d12 key (q1 + q2) ->
  env_int environ "DEFAULT_STOCK" 100 = Ok dflt ->
  store_fault w = None ->
  0 <= q1 ->
  0 <= q2 ->
  q1 + q2 <= current_stock dflt key w ->
  current_stock dflt key w <= 2 ^ 53 ->
  reserve environ d2 (snd (reserve environ d1 w)) = reserve environ d12 w /\
  fst (reserve environ d12 w) =
    JsonReserve true (current_stock dflt key w - q1 - q2).
Proof.
  intros H1 H2 H12 Hd Hf Hq1 Hq2 Hle Hmax.
  rewrite (reserve_request_after _ _ _ _ _ _ H1 Hd Hf)
    by (unfold exact; lia).
  rewrite (reserve_request_after _ _ _ _ _ _ H12 Hd Hf)
    by (unfold exact; lia).
  set (C := current_stock dflt key w) in *. simpl.
  assert (Hs1 : stock_after C q1 = C - q1).
  { unfold stock_after.
    destruct (C <? q1) eqn:E1; [apply Z.ltb_lt in E1; lia|done]. }
  rewrite Hs1.
  assert (Hcur : current_stock dflt key
                   (set_store (<[key := C - q1]> (store w)) w) = C - q1).
  { by rewrite current_stock_set, decide_True. }
  rewrite (reserve_request_after _ _ _ _ _ _ H2 Hd)
    by (rewrite ?Hcur; unfold exact; (done || lia)).
  rewrite Hcur.
  unfold stock_after, answer_for.
  destruct (C - q1 <? q2) eqn:E2; [apply Z.ltb_lt in E2; lia|].
  destruct (C <? q1 + q2) eqn:E3; [apply Z.ltb_lt in E3; lia|].
  simpl. rewrite insert_insert_eq.
  replace (C - (q1 + q2)) with (C - q1 - q2) by lia. done.
Qed.

Lemma hold_commute k1 k2 h1 h2 (m : gmap string Z) :
  k1 <> k2 -> hold k2 h2 (hold k1 h1 m) = hold k1 h1 (hold k2 h2 m).
Proof.
  intros Hne. unfold hold. destruct h1, h2; try done.
  by apply insert_insert_ne.
Qed.

(** X10. Reservations on different items do not see each other: either order
    gives each request the same answer and leaves the same state. *)
Theorem reserve_items_commute environ d1 d2 k1 k2 q1 q2 dflt w :
  reservation_request d1 k1 q1 ->
  reservation_request d2 k2 q2 ->
  env_int environ "DEFAULT_STOCK" 100 = Ok dflt ->
  store_fault w = None ->
  k1 <> k2 ->
  fst (reserve environ d1 (snd (reserve environ d2 w))) =
    fst (reserve environ d1 w) /\
  fst (reserve environ d2 (snd (reserve environ d1 w))) =
    fst (reserve environ d2 w) /\
  snd (reserve environ d2 (snd (reserve environ d1 w))) =
    snd (reserve environ d1 (snd (reserve environ d2 w))).
Proof.
  intros H1 H2 Hd Hf Hne.
  rewrite (reserve_request_on _ _ _ _ _ _ H1 Hd Hf).
  rewrite (reserve_request_on _ _ _ _ _ _ H2 Hd Hf). simpl.
  rewrite (reserve_request_on _ _ _ _ _ _ H1 Hd) by done.
  rewrite (reserve_request_on _ _ _ _ _ _ H2 Hd) by done.
  simpl. rewrite !hold_lookup by done.
  split; [done|]. split; [done|].
  unfold set_store. simpl. f_equal. by apply hold_commute.
Qed.

Lemma fields_missing_both d x y :
  dict_get "item" d = Some x -> dict_get "quantity" d = Some y ->
  fields_missing (PDict d) = Ok false.
Proof.
  intros Hi Hq. unfold fields_missing.
  destruct d as [|kv d]; [done|]. cbn [truthy negb py_in].
  rewrite !bool_decide_eq_true_2; eauto.
Qed.

(** X11. A body that has both fields but a [quantity] that [int] refuses
    (nothing, a list, an object, a float without an integer part, or
    ASCII text that is not an integer literal) gets the framework's error
    response for that exception; the store is not consulted and the state
    does not change. *)
Theorem reserve_bad_quantity environ d x qv e w :
  dict_get "item" d = Some x ->
  dict_get "quantity" d = Some qv ->
  ascii_value qv ->
  py_int qv = Raise e ->
  reserve environ (PDict d) w = (Uncaught e, w).
Proof.
  intros Hi Hq _ He. unfold reserve, serve, bind, lift, ret.
  rewrite (fields_missing_both _ _ _ Hi Hq). simpl.
  by rewrite Hi, Hq, He.
Qed.

(** X12. When [DEFAULT_STOCK] is ASCII text that does not read as an
    integer, every well-formed request gets the framework's error
    response; the store is not consulted and the state does not change. *)
Theorem reserve_bad_default environ data key q s e w :
  reservation_request data key q ->
  environ !! "DEFAULT_STOCK" = Some s ->
  ascii_only s = true ->
  int_of_str s = Raise e ->
  reserve environ data w = (Uncaught e, w).
Proof.
  intros Hreq Hs _ He.
  pose proof (fields_missing_request _ _ _ Hreq) as Hm.
  destruct Hreq as (d & qv & -> & Hi & Hq & Hint).
  unfold reserve, serve, bind, lift, ret. rewrite Hm. simpl.
  rewrite Hi, Hq, Hint. unfold env_int. by rewrite Hs, He.
Qed.

(** ** Broker connection on every broker *)

Lemma try_connect_frame target host port w :
  let w1 := snd (try_connect target host port w) in
  store w1 = store w /\ store_fault w1 = store_fault w /\
  processed_counter w1 = processed_counter w /\
  (exists evs, trace w1 = trace w ++ evs) /\
  handshakes w1 = S (handshakes w) /\
  sleeps w1 = sleeps w.
Proof.
  unfold try_connect. destruct (target (handshakes w)); simpl;
    split_and!; try done;
    try (rewrite <- ?app_assoc; eexists; reflexivity);
    observe; first [lia | done].
Qed.

Lemma connect_loop_frame target host port base n :
  forall k w,
    let w' := snd (connect_loop target host port base n k w) in
    store w' = store w /\ store_fault w' = store_fault w /\
    processed_counter w' = processed_counter w /\
    (exists evs, trace w' = trace w ++ evs) /\
    (handshakes w <= handshakes w' <= handshakes w + n)%nat /\
    (length (sleeps w') <= length (sleeps w) + n)%nat.
Proof.
  induction n as [|n IH]; intros k w; simpl.
  - repeat (split; [done|]). split; [exists []; by rewrite app_nil_r|lia].
  - pose proof (try_connect_frame target host port w) as Hf. simpl in Hf.
    destruct (try_connect target host port w) as [[ch|e] w1]; simpl in *.
    + destruct Hf as (-> & -> & -> & Ht & -> & ->).
      split_and!; try done; lia.
    + unfold bind, print_retry, time_sleep.
      destruct Hf as (Hs & Hsf & Hp & [evs Ht] & Hh & Hsl).
      destruct (too_long _).
      { simpl. rewrite Hs, Hsf, Hp, Ht, Hh, Hsl.
        split_and!; try done; try lia. by eexists. }
      assert (Hstop : forall e0 : exn,
                let w' := snd (Raise (A:=nat) e0,
                               emit (PrintRetry e (base * (k + 1))) w1) in
                store w' = store w /\ store_fault w' = store_fault w /\
                processed_counter w' = processed_counter w /\
                (exists evs, trace w' = trace w ++ evs) /\
                (handshakes w <= handshakes w' <= handshakes w + S n)%nat /\
                (length (sleeps w') <= length (sleeps w) + S n)%nat).
      { intros e0. simpl. rewrite Hs, Hsf, Hp, Ht.
        rewrite handshakes_emit, sleeps_emit, Hh, Hsl. simpl.
        rewrite app_nil_r.
        split_and!; try done; try lia.
        rewrite <- app_assoc; by eexists. }
      destruct (_ || _); [apply Hstop|].
      destruct (base * (k + 1) <? 0); [apply Hstop|].
      clear Hstop.
      set (w2 := emit (Sleep _) _).
        specialize (IH (k + 1) w2). simpl in IH.
        destruct IH as (-> & -> & -> & [evs' ->] & Hh' & Hsl').
        unfold w2 in *. simpl. rewrite Hs, Hsf, Hp, Ht.
        rewrite !handshakes_emit, Hh in Hh'.
        rewrite !sleeps_emit, Hsl, !length_app in Hsl'.
        simpl in Hh', Hsl'.
        split_and!; try done; try lia.
        rewrite <- !app_assoc; by eexists.
Qed.

Lemma connect_broker_keeps environ target max_retries retry_base w :
  let w' := snd (connect_broker environ target max_retries retry_base w) in
  store w' = store w /\ store_fault w' = store_fault w /\
  processed_counter w' = processed_counter w.
Proof.
  unfold connect_broker, bind, lift.
  destruct (channel w), (connection w); simpl; try done;
    destruct (arg_or_env max_retries _ _ _) as [m|]; simpl; try done;
    destruct (arg_or_env retry_base _ _ _) as [b|]; simpl; try done;
    destruct (env_int _ _ _) as [port|]; simpl; try done;
    pose proof (connect_loop_frame target
                  (env_str environ "BROKER_HOST" "rabbitmq") port b
                  (Z.to_nat m) 0 w) as Hl; simpl in Hl;
    by destruct Hl as (? & ? & ? & _).
Qed.

(** X13. Whatever the broker answers and however the call ends,
    [connect_broker] leaves the store and the counter alone and only adds
    to the trace; the handshakes and the waits it adds are at most the
    effective maximum of attempts. *)
Theorem connect_broker_frame environ target max_retries retry_base w :
  let w' := snd (connect_broker environ target max_retries retry_base w) in
  store w' = store w /\ store_fault w' = store_fault w /\
  processed_counter w' = processed_counter w /\
  (exists evs, trace w' = trace w ++ evs) /\
  (forall m,
      arg_or_env max_retries environ "BROKER_MAX_RETRIES" 10 = Ok m ->
      (handshakes w <= handshakes w' <= handshakes w + Z.to_nat m)%nat /\
      (length (sleeps w') <= length (sleeps w) + Z.to_nat m)%nat).
Proof.
  assert (Hsame : store w = store w /\ store_fault w = store_fault w /\
            processed_counter w = processed_counter w /\
            (exists evs, trace w = trace w ++ evs) /\
            (forall m,
                arg_or_env max_retries environ "BROKER_MAX_RETRIES" 10 = Ok m ->
                (handshakes w <= handshakes w <= handshakes w + Z.to_nat m)%nat /\
                (length (sleeps w) <= length (sleeps w) + Z.to_nat m)%nat)).
  { repeat (split; [done|]).
    split; [exists []; by rewrite app_nil_r|]. intros; lia. }
  unfold connect_broker, bind, lift.
  destruct (channel w), (connection w); simpl; try done;
    destruct (arg_or_env max_retries _ _ _) as [m|]; simpl; try done;
    destruct (arg_or_env retry_base _ _ _) as [b|]; simpl; try done;
    destruct (env_int _ _ _) as [port|]; simpl; try done;
    pose proof (connect_loop_frame target
                  (env_str environ "BROKER_HOST" "rabbitmq") port b
                  (Z.to_nat m) 0 w) as Hl; simpl in Hl;
    destruct Hl as (? & ? & ? & ? & ? & ?);
    repeat (split; [done|]); by intros ? [= <-].
Qed.

Lemma connect_broker_uncached environ target max_retries retry_base w :
  channel w = None \/ connection w = None ->
  connect_broker environ target max_retries retry_base w =
    match arg_or_env max_retries environ "BROKER_MAX_RETRIES" 10 with
    | Ok m =>
        match arg_or_env retry_base environ "BROKER_RETRY_BASE" 2 with
        | Ok base =>
            match env_int environ "BROKER_PORT" 5672 with
            | Ok port =>
                connect_loop target (env_str environ "BROKER_HOST" "rabbitmq")
                  port base (Z.to_nat m) 0 w
            | Raise e => (Raise e, w)
            end
        | Raise e => (Raise e, w)
        end
    | Raise e => (Raise e, w)
    end.
Proof.
  intros Hcache. unfold connect_broker, bind, lift.
  destruct Hcache as [-> | Hc]; [done|].
  rewrite Hc. by destruct (channel w).
Qed.



(** X15. With nothing cached and settings that read as integers: when the
    effective maximum of attempts is zero or negative, [connect_broker]
    raises its [RuntimeError] at once: no handshake, no wait, the state as
    it was. *)
Theorem connect_broker_no_attempts environ target max_retries retry_base
    m base port w :
  channel w = None \/ connection w = None ->
  arg_or_env max_retries environ "BROKER_MAX_RETRIES" 10 = Ok m ->
  arg_or_env retry_base environ "BROKER_RETRY_BASE" 2 = Ok base ->
  env_int environ "BROKER_PORT" 5672 = Ok port ->
  m <= 0 ->
  connect_broker environ target max_retries retry_base w =
    (Raise could_not_connect, w).
Proof.
  intros Hcache Hm Hbase Hport Hle.
  rewrite connect_broker_uncached, Hm, Hbase, Hport by done.
  by replace (Z.to_nat m) with 0%nat by lia.
Qed.


(** X17. With nothing cached, at least one attempt allowed and a negative
    backoff base that is not below the range of [time.sleep], the first
    refused attempt ends the call: the wait is negative, [time.sleep]
    raises [ValueError], and there is no second handshake and no wait. *)
Theorem connect_broker_negative_base_stops environ target max_retries
    retry_base m base port w :
  channel w = None \/ connection w = None ->
  arg_or_env max_retries environ "BROKER_MAX_RETRIES" 10 = Ok m ->
  arg_or_env retry_base environ "BROKER_RETRY_BASE" 2 = Ok base ->
  env_int environ "BROKER_PORT" 5672 = Ok port ->
  1 <= m ->
  - max_sleep <= base < 0 ->
  attempt_fails (target (handshakes w)) ->
  exists w',
    connect_broker environ target max_retries retry_base w =
      (Raise ValueError, w') /\
    handshakes w' = S (handshakes w) /\
    sleeps w' = sleeps w.
Proof.
  intros Hcache Hm Hbase Hport Hm1 Hneg Hfail.
  destruct (try_connect_fails target
              (env_str environ "BROKER_HOST" "rabbitmq") port w Hfail)
    as (e & w1 & Htry & Hh & Hs).
  exists (emit (PrintRetry e (base * (0 + 1))) w1). split.
  - rewrite connect_broker_uncached, Hm, Hbase, Hport by done.
    destruct (Z.to_nat m) as [|n] eqn:Hn; [lia|]. simpl.
    rewrite Htry. unfold bind.
    rewrite print_retry_ok by lia.
    unfold time_sleep.
    destruct (base * (0 + 1) <? - max_sleep) eqn:E1;
      [apply Z.ltb_lt in E1; lia|].
    destruct (max_sleep <? base * (0 + 1)) eqn:E2;
      [apply Z.ltb_lt in E2; lia|].
    simpl.
    destruct (base * (0 + 1) <? 0) eqn:E; [done|apply Z.ltb_ge in E; lia].
  - rewrite handshakes_emit, sleeps_emit. simpl.
    rewrite app_nil_r. split; [lia|done].
Qed.

(** X18. With nothing cached and settings in ASCII text, a setting that
    does not read as an integer is reported before any network attempt:
    the [ValueError] of the conversion leaves [connect_broker] and the
    state is as it was. *)
Theorem connect_broker_bad_setting environ target max_retries retry_base e w :
  channel w = None \/ connection w = None ->
  ascii_environ environ ->
  arg_or_env max_retries environ "BROKER_MAX_RETRIES" 10 = Raise e \/
  (exists m,
      arg_or_env max_retries environ "BROKER_MAX_RETRIES" 10 = Ok m /\
      arg_or_env retry_base environ "BROKER_RETRY_BASE" 2 = Raise e) \/
  (exists m base,
      arg_or_env max_retries environ "BROKER_MAX_RETRIES" 10 = Ok m /\
      arg_or_env retry_base environ "BROKER_RETRY_BASE" 2 = Ok base /\
      env_int environ "BROKER_PORT" 5672 = Raise e) ->
  connect_broker environ target max_retries retry_base w = (Raise e, w).
Proof.
  intros Hcache _ Hbad.
  rewrite connect_broker_uncached by done.
  destruct Hbad as [-> | [(m & -> & ->) | (m & b & -> & -> & ->)]]; done.
Qed.




(** ** Consumer on every delivery *)

Lemma callback_acceptable b w :
  acceptable_event b ->
  exists v,
    json_loads b = Ok v /\
    callback b w = (Ok tt, emit (PrintProcessed v) (inc_processed w)).
Proof.
  intros (d & x & qv & q & Hv & Hi & Hq & Hint).
  eexists. split; [exact Hv|].
  unfold callback, bind, lift, effect. rewrite Hv. simpl.
  by rewrite Hi, Hq, Hint.
Qed.

Lemma callback_unacceptable b :
  ~ acceptable_event b -> exists e, forall w, callback b w = (Raise e, w).
Proof.
  intros Hbad. unfold callback, bind, lift.
  destruct (json_loads b) as [v|e0] eqn:Hv; [|by exists e0].
  destruct v as [| | | | | |d]; try (by exists TypeError). simpl.
  destruct (dict_get "item" d) as [x|] eqn:Hi;
    [|by exists (KeyError "item")].
  destruct (dict_get "quantity" d) as [qv|] eqn:Hq;
    [|by exists (KeyError "quantity")].
  destruct (py_int qv) as [q|e] eqn:Hint; [|by exists e].
  exfalso. apply Hbad. by exists d, x, qv, q.
Qed.

Lemma acceptable_event_dec b : acceptable_event b \/ ~ acceptable_event b.
Proof.
  unfold acceptable_event.
  destruct (json_loads b) as [v|e0] eqn:Hv;
    [|right; by intros (? & ? & ? & ? & ? & _)].
  destruct v as [| | | | | |d];
    try (right; by intros (? & ? & ? & ? & ? & _)).
  destruct (dict_get "item" d) as [x|] eqn:Hi.
  - destruct (dict_get "quantity" d) as [qv|] eqn:Hq.
    + destruct (py_int qv) as [q|e] eqn:Hint.
      * left. by exists d, x, qv, q.
      * right. intros (? & ? & ? & ? & [= <-] & _ & Hq' & Hint'). congruence.
    + right. intros (? & ? & ? & ? & [= <-] & _ & Hq' & _). congruence.
  - right. intros (? & ? & ? & ? & [= <-] & Hi' & _). congruence.
Qed.

(** X20. For a delivery whose quantity is ASCII text or not a string: the
    handler returns normally exactly when the body decodes to an object
    with an [item] and a [quantity] that converts to an integer, and then
    it has added one to the counter; on every other delivery it raises
    and leaves the whole state as it was. In no case does it touch the
    store or the broker globals. *)
Theorem callback_outcome b w :
  ascii_quantity b ->
  let '(r, w') := callback b w in
  store w' = store w /\ store_fault w' = store_fault w /\
  connection w' = connection w /\ channel w' = channel w /\
  ((r = Ok tt /\ acceptable_event b /\
    processed_counter w' = processed_counter w + 1) \/
   (exists e, r = Raise e /\ ~ acceptable_event b /\ w' = w)).
Proof.
  intros _.
  destruct (acceptable_event_dec b) as [Hok|Hbad].
  - destruct (callback_acceptable b w Hok) as (v & _ & ->). simpl.
    repeat (split; [done|]). left. done.
  - destruct (callback_unacceptable b Hbad) as [e He]. rewrite He.
    repeat (split; [done|]). right. by exists e.
Qed.

Lemma start_consuming_acceptable ds :
  Forall acceptable_event ds ->
  forall rest w,
    exists w1,
      start_consuming (ds ++ rest) w = start_consuming rest w1 /\
      processed_counter w1 = processed_counter w + Z.of_nat (length ds) /\
      store w1 = store w /\ store_fault w1 = store_fault w.
Proof.
  induction 1 as [|b ds Hb _ IH]; intros rest w.
  - exists w. simpl. split; [done|]. split; [lia|done].
  - simpl app. cbn [start_consuming].
    destruct (callback_acceptable b w Hb) as (v & _ & ->).
    destruct (IH rest (emit (PrintProcessed v) (inc_processed w)))
      as (w1 & -> & Hp & Hs & Hf).
    exists w1. split; [done|]. split; [|done].
    rewrite Hp. simpl length. simpl. lia.
Qed.

(** X21. When every delivery decodes to an object with an [item] and a
    [quantity] that converts to an integer, the loop handles them all and
    goes on waiting: the counter has grown by the number of deliveries and
    the store is as it was. *)
Theorem start_consuming_counts_all ds w :
  Forall acceptable_event ds ->
  exists w',
    start_consuming ds w = (Consuming, w') /\
    processed_counter w' = processed_counter w + Z.of_nat (length ds) /\
    store w' = store w.
Proof.
  intros Hall.
  destruct (start_consuming_acceptable ds Hall [] w) as (w1 & Heq & Hp & Hs & _).
  rewrite app_nil_r in Heq. exists w1. by rewrite Heq.
Qed.

(** X22. The loop ends at the first delivery that is not acceptable, when
    its quantity is ASCII text or not a string, with the exception the
    handler raises on it: the deliveries before it are counted, the ones
    after it are not, and the store is as it was. *)
Theorem start_consuming_stops_at_first_bad pre b rest w :
  Forall acceptable_event pre ->
  ascii_quantity b ->
  ~ acceptable_event b ->
  exists e w',
    start_consuming (pre ++ b :: rest) w = (Crashed e, w') /\
    callback b w' = (Raise e, w') /\
    processed_counter w' = processed_counter w + Z.of_nat (length pre) /\
    store w' = store w.
Proof.
  intros Hpre _ Hbad.
  destruct (callback_unacceptable b Hbad) as [e He].
  destruct (start_consuming_acceptable pre Hpre (b :: rest) w)
    as (w1 & -> & Hp & Hs & _).
  exists e, w1. simpl. by rewrite He.
Qed.

Lemma start_consuming_frame ds :
  forall w,
    let w' := snd (start_consuming ds w) in
    store w' = store w /\ store_fault w' = store_fault w /\
    processed_counter w <= processed_counter w' <=
      processed_counter w + Z.of_nat (length ds).
Proof.
  induction ds as [|b ds IH]; intros w; simpl; [split_and!; try done; lia|].
  destruct (acceptable_event_dec b) as [Hok|Hbad].
  - destruct (callback_acceptable b w Hok) as (v & _ & ->).
    specialize (IH (emit (PrintProcessed v) (inc_processed w))).
    simpl in IH. destruct IH as (-> & -> & Hp).
    split_and!; try done; lia.
  - destruct (callback_unacceptable b Hbad) as [e He]. rewrite He. simpl.
    split_and!; try done; lia.
Qed.

(** X23. The consumer path as a whole, from connecting to the last delivery,
    never writes to the store, whatever the broker does and whatever is
    delivered; the counter never goes down and grows by at most the number
    of deliveries. *)
Theorem start_consumer_frame environ target deliveries w :
  let w' := snd (start_consumer environ target deliveries w) in
  store w' = store w /\ store_fault w' = store_fault w /\
  processed_counter w <= processed_counter w' <=
    processed_counter w + Z.of_nat (length deliveries).
Proof.
  unfold start_consumer.
  pose proof (connect_broker_keeps environ target None None w) as Hc.
  simpl in Hc.
  destruct (connect_broker environ target None None w) as [[ch|e] w1];
    simpl in *; destruct Hc as (Hs & Hf & Hp).
  - pose proof (start_consuming_frame deliveries
                  (emit (BasicConsume ch "order_created" true) w1)) as Hl.
    simpl in Hl. destruct Hl as (-> & -> & Hl). simpl in Hl.
    rewrite Hp in Hl. done.
  - rewrite Hs, Hf, Hp. split_and!; try done; lia.
Qed.


(** ** The two paths together *)

Lemma reserve_past_event environ data ev w :
  reserve environ data (emit ev (inc_processed w)) =
    (fst (reserve environ data w),
     emit ev (inc_processed (snd (reserve environ data w)))).
Proof.
  unfold reserve, serve, bind, lift, ret.
  destruct (fields_missing data) as [[|]|]; simpl; try done.
  destruct (subscript data "item") as [item|]; simpl; try done.
  destruct (subscript data "quantity") as [qv|]; simpl; try done.
  destruct (py_int qv) as [qty|]; simpl; try done.
  destruct (env_int environ "DEFAULT_STOCK" 100) as [dflt|]; simpl; try done.
  unfold r_eval, r_get. simpl.
  destruct (store_fault w) eqn:Hf; simpl; try done.
  destruct (redis_encode item) as [key|]; simpl; try done.
  destruct (too_long qty || too_long dflt); simpl; try done.
  destruct (reserve_script key qty dflt (store w)) as [[res|] m']; simpl;
    [|done].
  destruct (res =? -1); simpl; [|done].
  rewrite Hf. done.
Qed.

(** X25. A reservation and the handling of a delivery do not see each other:
    in either order each gets the same result and the state at the end is
    the same. *)
Theorem reserve_callback_commute environ data b w :
  fst (reserve environ data (snd (callback b w))) =
    fst (reserve environ data w) /\
  fst (callback b (snd (reserve environ data w))) = fst (callback b w) /\
  snd (reserve environ data (snd (callback b w))) =
    snd (callback b (snd (reserve environ data w))).
Proof.
  destruct (acceptable_event_dec b) as [Hok|Hbad].
  - destruct (callback_acceptable b w Hok) as (v & Hv & ->).
    destruct (callback_acceptable b (snd (reserve environ data w)) Hok)
      as (v' & Hv' & ->).
    assert (v' = v) by congruence. subst v'.
    simpl. by rewrite reserve_past_event.
  - destruct (callback_unacceptable b Hbad) as [e He]. by rewrite !He.
Qed.

(** ** The further properties at concrete inputs *)

Lemma order_body_exact key n :
  -10000 <= n <= 10000 -> exact_quantity (order_body key n).
Proof.
  intros Hn qv [= <-]. split; [exact I|].
  intros q [= <-]. by apply small_exact.
Qed.

Lemma reserve_script_sentinel_witness :
  exists res m',
    reserve_script "widget" 30 100 ∅ = (Some res, m') /\
    res = 100 - 30 /\ m' !! "widget" = Some res.
Proof.
  destruct (reserve_script_sentinel "widget" 30 100 ∅)
    as (res & m' & Heq & Hiff & Hok & _).
  - apply small_exact. lia.
  - apply small_exact. vm_compute. split; discriminate.
  - vm_compute. discriminate.
  - exists res, m'. split; [exact Heq|].
    assert (Hne : res <> -1).
    { intros Hres. apply Hiff in Hres. vm_compute in Hres. discriminate. }
    destruct (Hok Hne) as (Hres & _ & Hm). split; assumption.
Defined.

Lemma reserve_frame_witness :
  let w' := snd (reserve ∅ (order_body "widget" 30) stocked) in
  trace w' = trace stocked /\ store w' !! "gadget" = store stocked !! "gadget".
Proof.
  destruct (reserve_frame ∅ (order_body "widget" 30) stocked)
    as (_ & _ & _ & _ & Ht & Hk).
  split; [exact Ht|]. apply Hk.
  intros item [= <-]. discriminate.
Defined.

Lemma reserve_store_fault_no_effect_witness :
  let down := World {[ "widget" := 70 ]} (Some "timeout") None None 0 [] in
  snd (reserve ∅ (order_body "widget" 30) down) = down /\
  status (fst (reserve ∅ (order_body "widget" 30) down)) <> 200.
Proof.
  apply (reserve_store_fault_no_effect ∅ (order_body "widget" 30) "timeout").
  reflexivity.
Defined.

Lemma reserve_all_keeps_nonneg_witness :
  let reqs := [order_body "widget" (-5); PNone; order_body "gadget" 1000;
               order_body "widget" 80] in
  let w' := snd (reserve_all ∅ reqs stocked) in
  stock_nonneg w' /\
  forall item n, fst (get_inventory item w') = JsonStock item n -> 0 <= n.
Proof.
  apply (reserve_all_keeps_nonneg ∅
           [order_body "widget" (-5); PNone; order_body "gadget" 1000;
            order_body "widget" 80] stocked).
  - split.
    + intros s Hs. discriminate Hs.
    + intros dflt Hd. vm_compute in Hd. injection Hd as <-.
      assert (100 < 2 ^ 53) by reflexivity. lia.
  - apply Forall_cons; split; [apply order_body_exact; lia|].
    apply Forall_cons; split; [intros qv Hqv; discriminate Hqv|].
    apply Forall_cons; split; [apply order_body_exact; lia|].
    apply Forall_cons; split; [apply order_body_exact; lia|].
    apply Forall_nil_2.
  - intros k v Hk. unfold stocked in Hk. simpl in Hk.
    apply lookup_singleton_Some in Hk as [_ <-]. lia.
Defined.

Lemma reserve_sufficient_granted_witness :
  reserve ∅ (order_body "widget" 30) stocked =
    (JsonReserve true (current_stock 100 "widget" stocked - 30),
     set_store (<["widget" := current_stock 100 "widget" stocked - 30]>
                  (store stocked)) stocked) /\
  0 <= current_stock 100 "widget" stocked - 30
    < current_stock 100 "widget" stocked.
Proof.
  apply (reserve_sufficient_granted ∅ (order_body "widget" 30) "widget" 30 100
           stocked).
  - apply order_body_request.
  - reflexivity.
  - reflexivity.
  - lia.
  - vm_compute. discriminate.
  - vm_compute. discriminate.
Defined.

Lemma reserve_all_conserves_witness :
  let '(resps, w') :=
    reserve_all ∅ (map (order_body "widget") [50; 30; 20]) stocked in
  let s := total_granted [50; 30; 20] resps in
  0 <= s <= current_stock 100 "widget" stocked /\
  current_stock 100 "widget" w' = current_stock 100 "widget" stocked - s /\
  0 <= current_stock 100 "widget" w'.
Proof.
  apply (reserve_all_conserves ∅ 100 "widget"
           (map (order_body "widget") [50; 30; 20]) [50; 30; 20] stocked).
  - reflexivity.
  - assert (50 < 2 ^ 53) by reflexivity.
    repeat constructor; try apply order_body_request; lia.
  - reflexivity.
  - vm_compute. split; discriminate.
Defined.

Lemma reserve_then_get_inventory_witness :
  let '(resp, w') := reserve ∅ (order_body "widget" 30) stocked in
  exists success remaining,
    resp = JsonReserve success remaining /\
    get_inventory "widget" w' = (JsonStock "widget" remaining, w').
Proof.
  apply (reserve_then_get_inventory ∅ (order_body "widget" 30) "widget" 30 100
           stocked).
  - apply order_body_request.
  - reflexivity.
  - reflexivity.
  - apply small_exact. lia.
  - apply small_exact. vm_compute. split; discriminate.
  - vm_compute. discriminate.
Defined.

Lemma reserve_refusal_repeats_witness :
  let '(resp, w1) := reserve ∅ (order_body "widget" 1000) stocked in
  resp = JsonReserve false (current_stock 100 "widget" stocked) /\
  reserve ∅ (order_body "widget" 1000) w1 = (resp, w1).
Proof.
  apply (reserve_refusal_repeats ∅ (order_body "widget" 1000) "widget" 1000
           100 stocked).
  - apply order_body_request.
  - reflexivity.
  - reflexivity.
  - reflexivity.
  - apply small_exact. vm_compute. split; discriminate.
  - apply small_exact. lia.
Defined.

Lemma reserve_twice_is_sum_witness :
  reserve ∅ (order_body "widget" 20)
    (snd (reserve ∅ (order_body "widget" 30) stocked))
  = reserve ∅ (order_body "widget" (30 + 20)) stocked /\
  fst (reserve ∅ (order_body "widget" (30 + 20)) stocked) =
    JsonReserve true (current_stock 100 "widget" stocked - 30 - 20).
Proof.
  apply (reserve_twice_is_sum ∅ (order_body "widget" 30)
           (order_body "widget" 20) (order_body "widget" (30 + 20))
           "widget" 30 20 100 stocked).
  - apply order_body_request.
  - apply order_body_request.
  - apply order_body_request.
  - reflexivity.
  - reflexivity.
  - lia.
  - lia.
  - vm_compute. discriminate.
  - vm_compute. discriminate.
Defined.

Lemma reserve_items_commute_witness :
  snd (reserve ∅ (order_body "gadget" 5)
         (snd (reserve ∅ (order_body "widget" 30) stocked)))
  = snd (reserve ∅ (order_body "widget" 30)
           (snd (reserve ∅ (order_body "gadget" 5) stocked))).
Proof.
  apply (reserve_items_commute ∅ (order_body "widget" 30)
           (order_body "gadget" 5) "widget" "gadget" 30 5 100 stocked).
  - apply order_body_request.
  - apply order_body_request.
  - reflexivity.
  - reflexivity.
  - discriminate.
Defined.

Lemma reserve_bad_quantity_witness :
  reserve ∅ (PDict [("item", PStr "widget"); ("quantity", PStr "many")]) stocked
  = (Uncaught ValueError, stocked).
Proof.
  apply (reserve_bad_quantity ∅ [("item", PStr "widget"); ("quantity", PStr "many")]
           (PStr "widget") (PStr "many") ValueError stocked); reflexivity.
Defined.

Lemma reserve_bad_default_witness :
  reserve bad_stock (order_body "widget" 30) stocked
  = (Uncaught ValueError, stocked).
Proof.
  apply (reserve_bad_default bad_stock (order_body "widget" 30) "widget" 30
           "lots" ValueError stocked).
  - apply order_body_request.
  - reflexivity.
  - reflexivity.
  - reflexivity.
Defined.

Lemma connect_broker_frame_witness :
  let w' := snd (connect_broker ∅ flaky (Some 5) None stocked) in
  store w' = store stocked /\
  (handshakes w' <= handshakes stocked + 5)%nat.
Proof.
  destruct (connect_broker_frame ∅ flaky (Some 5) None stocked)
    as (Hs & _ & _ & _ & Hb).
  split; [exact Hs|].
  destruct (Hb 5 eq_refl) as [[_ Hh] _]. exact Hh.
Defined.


Lemma connect_broker_no_attempts_witness :
  connect_broker no_retries accepting None None boot
  = (Raise could_not_connect, boot).
Proof.
  apply (connect_broker_no_attempts no_retries accepting None None 0 2 5672
           boot).
  - left. reflexivity.
  - reflexivity.
  - reflexivity.
  - reflexivity.
  - lia.
Defined.


Lemma connect_broker_negative_base_stops_witness :
  exists w',
    connect_broker ∅ refusing (Some 3) (Some (-1)) boot =
      (Raise ValueError, w') /\
    handshakes w' = S (handshakes boot) /\
    sleeps w' = sleeps boot.
Proof.
  apply (connect_broker_negative_base_stops ∅ refusing (Some 3) (Some (-1))
           3 (-1) 5672 boot).
  - left. reflexivity.
  - reflexivity.
  - reflexivity.
  - reflexivity.
  - lia.
  - vm_compute. split; [discriminate|reflexivity].
  - exact I.
Defined.

Lemma connect_broker_bad_setting_witness :
  connect_broker bad_retries accepting None None boot
  = (Raise ValueError, boot).
Proof.
  apply (connect_broker_bad_setting bad_retries accepting None None ValueError
           boot).
  - left. reflexivity.
  - intros name s Hs. unfold bad_retries in Hs.
    apply lookup_singleton_Some in Hs as [_ <-]. reflexivity.
  - left. reflexivity.
Defined.


Lemma callback_outcome_witness :
  let b := Json (PDict [("item", PInt 7); ("quantity", PStr "3")]) in
  fst (callback b stocked) = Ok tt /\
  store (snd (callback b stocked)) = store stocked.
Proof.
  intros b.
  assert (Hascii : ascii_quantity b).
  { intros d qv [= <-] [= <-]. reflexivity. }
  pose proof (callback_outcome b stocked Hascii) as H.
  destruct (callback b stocked) as [r w'].
  destruct H as (Hs & _ & _ & _ & [(Hr & _) | (e & _ & Hbad & _)]).
  - split; [exact Hr|exact Hs].
  - exfalso. apply Hbad.
    exists [("item", PInt 7); ("quantity", PStr "3")], (PInt 7), (PStr "3"), 3.
    repeat split; reflexivity.
Defined.

Lemma start_consuming_counts_all_witness :
  exists w',
    start_consuming [Json (order_body "widget" 30); Json (order_body "gadget" 1)]
      stocked = (Consuming, w') /\
    processed_counter w' = processed_counter stocked + 2 /\
    store w' = store stocked.
Proof.
  apply (start_consuming_counts_all
           [Json (order_body "widget" 30); Json (order_body "gadget" 1)]
           stocked).
  repeat constructor; eexists _, _, _, _; repeat split; reflexivity.
Defined.

Lemma start_consuming_stops_at_first_bad_witness :
  let bad := Json (PDict [("item", PStr "widget"); ("quantity", PStr "many")]) in
  exists e w',
    start_consuming
      ([Json (order_body "widget" 30)] ++ bad :: [Json (order_body "gadget" 1)])
      stocked = (Crashed e, w') /\
    callback bad w' = (Raise e, w') /\
    processed_counter w' = processed_counter stocked + 1 /\
    store w' = store stocked.
Proof.
  apply (start_consuming_stops_at_first_bad
           [Json (order_body "widget" 30)]
           (Json (PDict [("item", PStr "widget"); ("quantity", PStr "many")]))
           [Json (order_body "gadget" 1)] stocked).
  - repeat constructor; eexists _, _, _, _; repeat split; reflexivity.
  - intros d qv [= <-] [= <-]. reflexivity.
  - intros (d & x & qv & q & [= <-] & _ & [= <-] & Hint). discriminate Hint.
Defined.

Lemma start_consumer_frame_witness :
  let w' := snd (start_consumer ∅ flaky
                   [Json (order_body "widget" 30); Garbage "oops"] stocked) in
  store w' = store stocked /\
  processed_counter stocked <= processed_counter w'
    <= processed_counter stocked + 2.
Proof.
  destruct (start_consumer_frame ∅ flaky
              [Json (order_body "widget" 30); Garbage "oops"] stocked)
    as (Hs & _ & Hp).
  split; [exact Hs|exact Hp].
Defined.


Lemma reserve_callback_commute_witness :
  snd (reserve ∅ (order_body "widget" 30)
         (snd (callback (Json (order_body "widget" 30)) stocked)))
  = snd (callback (Json (order_body "widget" 30))
           (snd (reserve ∅ (order_body "widget" 30) stocked))).
Proof.
  apply (reserve_callback_commute ∅ (order_body "widget" 30)
           (Json (order_body "widget" 30)) stocked).
Defined.
